(** * OCI registry store: a shallow embedding of [storage.go]

    The store maps the kloset storage contract (Put / Get / Delete / List of
    a binary object named by a 32-byte MAC inside a resource category) onto
    the OCI distribution protocol.  This development embeds the Go code as
    Rocq functions over an explicit network state and proves the properties
    the specification states about it.

    Layout:
    - Go runtime values: strings, byte slices, errors;
    - the pieces of the Go standard library the store calls
      ([strings], [fmt], [encoding/hex], [net/http] headers, [crypto/sha256]);
    - the store itself, function by function, in a state-and-error monad
      whose state is the remote side plus a log of the HTTP exchanges;
    - concrete environments (a scripted transport, a reference registry);
    - the theorems. *)

From Stdlib Require Import ZArith NArith Lia List Bool.
From Stdlib.Strings Require Import Ascii String Byte.
From Stdlib Require Import DecimalString.
From stdpp Require Import base option list gmap strings.

Local Open Scope string_scope.
Local Open Scope Z_scope.

(** String concatenation computes on a literal prefix. *)
#[local] Arguments String.append !_ _ : simpl nomatch.

(** ** Go values *)

(** A Go [string] is [string]; a [[]byte] is a list of bytes. *)
Abbreviation bytes := (list byte).

(** [[]byte(s)] and [string(b)]. *)
Definition bytes_of_string (s : string) : bytes := list_byte_of_string s.
Definition string_of_bytes (b : bytes) : string := string_of_list_byte b.

(** Go [error] values.  [ErrUnsupported] is [errors.ErrUnsupported];
    [Errorf] is an error built by [fmt.Errorf] without wrapping; [ErrWrap]
    is [fmt.Errorf("<msg>: %w", e)]; [ErrStatus] is the error [do] builds
    from a response whose status is not 2xx; [ErrLib] is an error value
    handed back by a library call. *)
Inductive error : Type :=
| ErrUnsupported
| Errorf (msg : string)
| ErrWrap (msg : string) (e : error)
| ErrStatus (method fullURL status body : string)
| ErrLib (pkg msg : string).

(** A Go result pair [(v, err)]: the value is meaningful only when [err]
    is nil, so the pair is a sum. *)
Inductive result (A : Type) : Type :=
| Ok (a : A)
| Err (e : error).
Arguments Ok {A} a.
Arguments Err {A} e.

Definition is_Ok {A} (r : result A) : bool :=
  match r with Ok _ => true | Err _ => false end.

(** ** Package [strings] *)

Fixpoint string_drop (n : nat) (s : string) : string :=
  match n, s with
  | O, _ => s
  | S n', String _ s' => string_drop n' s'
  | S _, EmptyString => EmptyString
  end.

Fixpoint strings_HasPrefix (s prefix : string) {struct prefix} : bool :=
  match prefix with
  | EmptyString => true
  | String p prefix' =>
      match s with
      | String c s' => if Ascii.eqb c p then strings_HasPrefix s' prefix' else false
      | EmptyString => false
      end
  end.

Definition strings_TrimPrefix (s prefix : string) : string :=
  if strings_HasPrefix s prefix then string_drop (String.length prefix) s else s.

Fixpoint strings_Contains (s substr : string) : bool :=
  strings_HasPrefix s substr ||
  match s with
  | EmptyString => false
  | String _ s' => strings_Contains s' substr
  end.

(** Membership of a byte in a cutset.  The cutsets of this program are
    ASCII, where Go's rune-wise trimming is byte-wise. *)
Fixpoint in_cutset (c : ascii) (cutset : string) : bool :=
  match cutset with
  | EmptyString => false
  | String d cutset' => Ascii.eqb c d || in_cutset c cutset'
  end.

Fixpoint strings_TrimLeft (s cutset : string) : string :=
  match s with
  | EmptyString => EmptyString
  | String c s' => if in_cutset c cutset then strings_TrimLeft s' cutset else s
  end.

Fixpoint strings_TrimRight (s cutset : string) : string :=
  match s with
  | EmptyString => EmptyString
  | String c s' =>
      match strings_TrimRight s' cutset with
      | EmptyString => if in_cutset c cutset then EmptyString else String c EmptyString
      | r => String c r
      end
  end.

Definition strings_Trim (s cutset : string) : string :=
  strings_TrimRight (strings_TrimLeft s cutset) cutset.

(** ASCII white space, as [strings.TrimSpace] sees it on ASCII input:
    tab, line feed, vertical tab, form feed, carriage return, space. *)
Definition ascii_space : string :=
  String (ascii_of_nat 9) (String (ascii_of_nat 10) (String (ascii_of_nat 11)
  (String (ascii_of_nat 12) (String (ascii_of_nat 13) " ")))).

Definition strings_TrimSpace (s : string) : string := strings_Trim s ascii_space.

(** [strings.Split s sep] for a non-empty separator.  [skip] counts the
    bytes of a separator just matched that are still to be passed over;
    [cur] is the current piece, reversed. *)
Fixpoint Split_from (sep : string) (skip : nat) (cur : list ascii) (s : string)
  : list string :=
  match s with
  | EmptyString => [string_of_list_ascii (rev cur)]
  | String c s' =>
      match skip with
      | S k => Split_from sep k cur s'
      | O =>
          if strings_HasPrefix s sep
          then string_of_list_ascii (rev cur)
               :: Split_from sep (String.length sep - 1) [] s'
          else Split_from sep O (c :: cur) s'
      end
  end.

Definition strings_Split (s sep : string) : list string := Split_from sep O [] s.

(** [strings.Replace s old new 1] for a non-empty [old]: the first
    occurrence only. *)
Fixpoint strings_Replace1 (s old new : string) : string :=
  if strings_HasPrefix s old then new +:+ string_drop (String.length old) s
  else match s with
       | EmptyString => EmptyString
       | String c s' => String c (strings_Replace1 s' old new)
       end.

(** ** Package [fmt] *)

Definition hexdigit (n : N) : ascii :=
  match n with
  | 0 => "0" | 1 => "1" | 2 => "2" | 3 => "3" | 4 => "4" | 5 => "5"
  | 6 => "6" | 7 => "7" | 8 => "8" | 9 => "9" | 10 => "a" | 11 => "b"
  | 12 => "c" | 13 => "d" | 14 => "e" | _ => "f"
  end%N%char.

(** [fmt.Sprintf("%x", b)] on a byte slice or byte array: two lower-case
    hexadecimal digits per byte. *)
Fixpoint fmt_x (b : bytes) : string :=
  match b with
  | [] => EmptyString
  | c :: b' =>
      let n := Byte.to_N c in
      String (hexdigit (n / 16)) (String (hexdigit (n mod 16)) (fmt_x b'))
  end.

(** [fmt.Sprintf("%d", z)]. *)
Definition fmt_d (z : Z) : string := NilZero.string_of_int (Z.to_int z).

(** ** Package [encoding/hex] *)

Definition fromHexChar (c : ascii) : option N :=
  let n := N_of_ascii c in
  if ((48 <=? n) && (n <=? 57))%N then Some (n - 48)%N
  else if ((97 <=? n) && (n <=? 102))%N then Some (n - 87)%N
  else if ((65 <=? n) && (n <=? 70))%N then Some (n - 55)%N
  else None.

Definition byte_of_N (n : N) : byte :=
  match Byte.of_N n with Some b => b | None => x00 end.

(** [hex.DecodeString]: pairs of digits left to right, the first invalid
    byte is an error, and so is an odd length. *)
Fixpoint hex_DecodeString (s : string) : result bytes :=
  match s with
  | EmptyString => Ok []
  | String p EmptyString =>
      match fromHexChar p with
      | None => Err (ErrLib "hex" "invalid byte")
      | Some _ => Err (ErrLib "hex" "odd length hex string")
      end
  | String p (String q s') =>
      match fromHexChar p, fromHexChar q with
      | Some a, Some b =>
          match hex_DecodeString s' with
          | Ok r => Ok (byte_of_N (16 * a + b) :: r)
          | Err e => Err e
          end
      | _, _ => Err (ErrLib "hex" "invalid byte")
      end
  end.

(** [Sscanf(s, "%d", &v)] on ASCII input: leading blanks are skipped (a
    line feed is an error), one optional sign is taken, then the longest
    run of digits and underscores is the token, which [strconv.ParseInt]
    reads in base 10 and 64 bits.  [None] is the error case, in which the
    destination keeps its old value. *)
Definition is_blank (c : ascii) : bool :=
  let n := N_of_ascii c in
  ((n =? 9) || (n =? 11) || (n =? 12) || (n =? 13) || (n =? 32))%N.

Fixpoint SkipSpace (s : string) : string :=
  match s with
  | String c s' => if is_blank c then SkipSpace s' else s
  | EmptyString => EmptyString
  end.

Definition is_digit (c : ascii) : bool :=
  let n := N_of_ascii c in ((48 <=? n) && (n <=? 57))%N.

(** The token of [scanNumber]: [Some v] when it is made of digits only,
    [None] when it is empty or holds an underscore. *)
Fixpoint scan_digits (acc : option Z) (s : string) : option Z :=
  match s with
  | String c s' =>
      if is_digit c then
        match acc with
        | Some v => scan_digits (Some (10 * v + Z.of_N (N_of_ascii c - 48))) s'
        | None => None
        end
      else if Ascii.eqb c "_" then
        match scan_digits None s' with _ => None end
      else acc
  | EmptyString => acc
  end.

Definition scanNumber (s : string) : option Z :=
  match s with
  | String c _ => if is_digit c || Ascii.eqb c "_" then scan_digits (Some 0) s else None
  | EmptyString => None
  end.

Definition fmt_Sscanf_d (s : string) : option Z :=
  let s := SkipSpace s in
  let '(neg, s) :=
    match s with
    | String "-" s' => (true, s')
    | String "+" s' => (false, s')
    | _ => (false, s)
    end in
  match scanNumber s with
  | Some v =>
      let i := if neg then - v else v in
      if (- 2 ^ 63 <=? i) && (i <=? 2 ^ 63 - 1) then Some i else None
  | None => None
  end.

(** Wrap-around of the fixed-width integer types. *)
Definition wrap_uint64 (z : Z) : Z := z mod 2 ^ 64.
Definition wrap_int64 (z : Z) : Z := (z + 2 ^ 63) mod 2 ^ 64 - 2 ^ 63.

(** ** Package [crypto/sha256] *)

Module sha256.

Definition add32 (x y : Z) : Z := (x + y) mod 2 ^ 32.
Definition rotr (n x : Z) : Z :=
  Z.lor (Z.shiftr x n) (Z.shiftl x (32 - n) mod 2 ^ 32).
Definition shr (n x : Z) : Z := Z.shiftr x n.
Definition not32 (x : Z) : Z := Z.lxor x 0xffffffff.

Definition Ch (x y z : Z) : Z := Z.lxor (Z.land x y) (Z.land (not32 x) z).
Definition Maj (x y z : Z) : Z :=
  Z.lxor (Z.lxor (Z.land x y) (Z.land x z)) (Z.land y z).
Definition Sigma0 (x : Z) : Z := Z.lxor (Z.lxor (rotr 2 x) (rotr 13 x)) (rotr 22 x).
Definition Sigma1 (x : Z) : Z := Z.lxor (Z.lxor (rotr 6 x) (rotr 11 x)) (rotr 25 x).
Definition sigma0 (x : Z) : Z := Z.lxor (Z.lxor (rotr 7 x) (rotr 18 x)) (shr 3 x).
Definition sigma1 (x : Z) : Z := Z.lxor (Z.lxor (rotr 17 x) (rotr 19 x)) (shr 10 x).

(** The round constants are the first 32 bits of the fractional parts of
    the cube roots of the first 64 primes, the initial hash value those of
    the square roots of the first 8. *)
Definition is_prime (n : nat) : bool :=
  forallb (fun d => negb (n mod d =? 0)%nat) (seq 2 (n - 2)).

Definition primes (count : nat) : list Z :=
  map Z.of_nat (firstn count (filter (fun n => is_prime n = true) (seq 2 310))).

(** The integer cube root by bisection between [lo] and [hi]. *)
Fixpoint icbrt_between (fuel : nat) (lo hi n : Z) : Z :=
  match fuel with
  | O => lo
  | S f =>
      let mid := (lo + hi) / 2 in
      if mid * mid * mid <=? n then icbrt_between f mid hi n
      else icbrt_between f lo mid n
  end.

Definition frac_cbrt32 (p : Z) : Z := icbrt_between 40 0 (2 ^ 36) (p * 2 ^ 96) mod 2 ^ 32.
Definition frac_sqrt32 (p : Z) : Z := Z.sqrt (p * 2 ^ 64) mod 2 ^ 32.

Definition K : list Z := Eval vm_compute in map frac_cbrt32 (primes 64).

Definition H0 : list Z := Eval vm_compute in map frac_sqrt32 (primes 8).

(** Padding: a one bit, zeros up to 56 modulo 64, the bit length on 64
    bits, big-endian. *)
Definition be_bytes (n : nat) (v : Z) : list Z :=
  map (fun i => Z.shiftr v (8 * Z.of_nat i) mod 256) (rev (seq 0 n)).

Definition pad (msg : list Z) : list Z :=
  let l := Z.of_nat (length msg) in
  let zeros := Z.to_nat ((55 - l) mod 64) in
  msg ++ [0x80] ++ repeat 0 zeros ++ be_bytes 8 (8 * l).

Fixpoint be_words (fuel : nat) (bs : list Z) : list Z :=
  match fuel, bs with
  | S f, a :: b :: c :: d :: bs' =>
      (((a * 256 + b) * 256 + c) * 256 + d) :: be_words f bs'
  | _, _ => []
  end.

(** The message schedule, extended one word at a time. *)
Fixpoint schedule (n : nat) (w : list Z) : list Z :=
  match n with
  | O => w
  | S n' =>
      let t := length w in
      let g i := nth (t - i) w 0 in
      schedule n' (w ++ [add32 (add32 (sigma1 (g 2%nat)) (g 7%nat))
                               (add32 (sigma0 (g 15%nat)) (g 16%nat))])
  end.

Definition round (st : list Z) (kw : Z * Z) : list Z :=
  match st with
  | [a; b; c; d; e; f; g; h] =>
      let t1 := add32 (add32 (add32 h (Sigma1 e)) (add32 (Ch e f g) (fst kw))) (snd kw) in
      let t2 := add32 (Sigma0 a) (Maj a b c) in
      [add32 t1 t2; a; b; c; add32 d t1; e; f; g]
  | _ => st
  end.

Definition block (h : list Z) (w16 : list Z) : list Z :=
  let w := schedule 48 w16 in
  let st := fold_left round (combine K w) h in
  map (fun p => add32 (fst p) (snd p)) (combine h st).

Fixpoint blocks (fuel : nat) (h : list Z) (ws : list Z) : list Z :=
  match fuel with
  | O => h
  | S f =>
      match ws with
      | [] => h
      | _ => blocks f (block h (firstn 16 ws)) (skipn 16 ws)
      end
  end.

Definition Sum (data : bytes) : bytes :=
  let msg := pad (map (fun b => Z.of_N (Byte.to_N b)) data) in
  let ws := be_words (length msg) msg in
  let h := blocks (length ws) H0 ws in
  map (fun z => byte_of_N (Z.to_N z)) (flat_map (be_bytes 4) h).

End sha256.

(** ** Package [net/url]: query escaping *)

Definition upperhex (n : N) : ascii :=
  match n with
  | 0 => "0" | 1 => "1" | 2 => "2" | 3 => "3" | 4 => "4" | 5 => "5"
  | 6 => "6" | 7 => "7" | 8 => "8" | 9 => "9" | 10 => "A" | 11 => "B"
  | 12 => "C" | 13 => "D" | 14 => "E" | _ => "F"
  end%N%char.

Definition is_alnum (c : ascii) : bool :=
  let n := N_of_ascii c in
  (((48 <=? n) && (n <=? 57)) || ((65 <=? n) && (n <=? 90)) || ((97 <=? n) && (n <=? 122)))%N.

(** [shouldEscape c encodeQueryComponent]: everything but the unreserved
    characters. *)
Definition shouldEscape_query (c : ascii) : bool :=
  negb (is_alnum c || Ascii.eqb c "-" || Ascii.eqb c "_" || Ascii.eqb c "."
        || Ascii.eqb c "~").

Fixpoint url_QueryEscape (s : string) : string :=
  match s with
  | EmptyString => EmptyString
  | String c s' =>
      if Ascii.eqb c " " then String "+" (url_QueryEscape s')
      else if shouldEscape_query c then
        let n := N_of_ascii c in
        String "%" (String (upperhex (n / 16)) (String (upperhex (n mod 16))
          (url_QueryEscape s')))
      else String c (url_QueryEscape s')
  end.


(** ** Package [net/http]: headers, requests, responses *)

(** [http.Header] is [map[string][]string]; a nil header reads as the
    empty one. *)
Abbreviation Header := (gmap string (list string)).

Definition is_lower (c : ascii) : bool :=
  let n := N_of_ascii c in ((97 <=? n) && (n <=? 122))%N.
Definition is_upper (c : ascii) : bool :=
  let n := N_of_ascii c in ((65 <=? n) && (n <=? 90))%N.
Definition to_upper (c : ascii) : ascii :=
  if is_lower c then ascii_of_N (N_of_ascii c - 32) else c.
Definition to_lower (c : ascii) : ascii :=
  if is_upper c then ascii_of_N (N_of_ascii c + 32) else c.

(** The bytes of an HTTP token. *)
Definition validHeaderFieldByte (c : ascii) : bool :=
  is_alnum c || in_cutset c "!#$%&'*+-.^_`|~".

Fixpoint string_forallb (f : ascii -> bool) (s : string) : bool :=
  match s with
  | EmptyString => true
  | String c s' => f c && string_forallb f s'
  end.

Fixpoint canonical_go (upper : bool) (s : string) : string :=
  match s with
  | EmptyString => EmptyString
  | String c s' =>
      let c' := if upper then to_upper c else to_lower c in
      String c' (canonical_go (Ascii.eqb c' "-") s')
  end.

(** [textproto.CanonicalMIMEHeaderKey]: a key that is not a token is
    left as it is. *)
Definition CanonicalMIMEHeaderKey (s : string) : string :=
  if string_forallb validHeaderFieldByte s then canonical_go true s else s.

Definition Header_Set (h : Header) (key value : string) : Header :=
  <[CanonicalMIMEHeaderKey key := [value]]> h.

Definition Header_Add (h : Header) (key value : string) : Header :=
  let k := CanonicalMIMEHeaderKey key in
  <[k := (default [] (h !! k) ++ [value])%list]> h.

Definition Header_Get (h : Header) (key : string) : string :=
  match h !! CanonicalMIMEHeaderKey key with
  | Some (v :: _) => v
  | _ => EmptyString
  end.

(** The double loop [for k, vv := range src { for _, v := range vv {
    dst.Add(k, v) } }].  The headers the store passes are built by [Set],
    so their keys are canonical and distinct, they do not interfere, and
    the order in which Go walks the map does not show in the result. *)
Definition Header_AddAll (dst src : Header) : Header :=
  map_fold (fun k vv h => fold_left (fun h v => Header_Add h k v) vv h) dst src.

(** [http.Request], as far as the store sets it: the body is the whole
    byte sequence its reader yields, [None] for a nil body. *)
Record Request : Type := {
  req_Method : string;
  req_URL : string;
  req_Body : option bytes;
  req_Header : Header;
}.

(** [http.Response].  [http.Client.Do] never returns a nil body with a
    nil error, so the body is always there; it is the byte sequence the
    reader yields. *)
Record Response : Type := {
  resp_StatusCode : Z;
  resp_Status : string;
  resp_Header : Header;
  resp_Body : bytes;
}.

(** [http.Client] with its [http.Transport], as far as [New] sets them. *)
Record httpClient : Type := {
  InsecureSkipVerify : bool;
  Timeout : Z;
}.

(** ** Package [net/url] *)

Record URL : Type := {
  Scheme : string;
  Opaque : string;
  User : option string;
  Host : string;
  Path : string;
  RawPath : string;
  OmitHost : bool;
  ForceQuery : bool;
  RawQuery : string;
  Fragment : string;
  RawFragment : string;
}.

(** The assignment [u.Path = p]. *)
Definition URL_set_Path (u : URL) (p : string) : URL :=
  {| Scheme := Scheme u; Opaque := Opaque u; User := User u; Host := Host u;
     Path := p; RawPath := RawPath u; OmitHost := OmitHost u;
     ForceQuery := ForceQuery u; RawQuery := RawQuery u;
     Fragment := Fragment u; RawFragment := RawFragment u |}.

(** The parser and printer of [net/url] are library code outside the
    repository; the store is written against this interface. *)
Class NetURL : Type := {
  url_Parse : string -> result URL;
  URL_String : URL -> string;
  URL_ResolveReference : URL -> URL -> URL;
}.

(** ** The JSON documents of the protocol *)

Record descriptor : Type := {
  d_MediaType : string;
  d_Digest : string;
  d_Size : Z;
}.

Record ociManifest : Type := {
  SchemaVersion : Z;
  MediaType : string;
  Config : descriptor;
  Layers : list descriptor;
}.

Record tagsList : Type := {
  Name : string;
  Tags : list string;
}.

(** [encoding/json] at the three types the store uses it at:
    [json.Marshal(man)] and [json.NewDecoder(rc).Decode(&v)]. *)
Class EncodingJSON : Type := {
  json_Marshal_ociManifest : ociManifest -> result bytes;
  json_Decode_ociManifest : bytes -> result ociManifest;
  json_Decode_tagsList : bytes -> result tagsList;
}.

(** ** The remote side *)

(** [s.client.Do(req)]: one HTTP round trip against a remote side whose
    state is [World].  A response comes back only after the request body
    has been read to its end, so a hash fed by a [TeeReader] around the
    body has seen all of it. *)
Class Transport : Type := {
  World : Type;
  client_Do : httpClient -> Request -> World -> result Response * World;
}.

(** ** kloset types *)

(** [storage.StorageResource]: the three categories the store serves, and
    any other value of the type. *)
Inductive StorageResource : Type :=
| StorageResourcePackfile
| StorageResourceState
| StorageResourceLock
| StorageResourceOther (code : Z).

(** [objects.MAC] is [[32]byte]. *)
Abbreviation MAC := (list byte).

(** [storage.Range]: [Offset] is a [uint64], [Length] a [uint32]. *)
Record Range : Type := {
  Offset : Z;
  Length : Z;
}.

(** * The store *)

Record ociStore : Type := {
  client : httpClient;
  base : string;
  repo : string;
}.

(** The media types and header values the store writes. *)
Definition manifestMediaType : string := "application/vnd.oci.image.manifest.v1+json".
Definition configMediaType : string := "application/vnd.oci.image.config.v1+json".
Definition layerMediaType : string := "application/octet-stream".
Definition manifestAccept : string :=
  "application/vnd.oci.image.manifest.v1+json, application/vnd.docker.distribution.manifest.v2+json".

(** The prefix switch that opens [List], [Put], [Get] and [Delete];
    [None] is the [default] branch. *)
Definition resource_prefix (res : StorageResource) : option string :=
  match res with
  | StorageResourcePackfile => Some "packfiles-"
  | StorageResourceState => Some "state-"
  | StorageResourceLock => Some "locks-"
  | StorageResourceOther _ => None
  end.

(** [fmt.Sprintf("%s%x", prefix, mac)]. *)
Definition tag_of (prefix : string) (mac : MAC) : string := prefix +:+ fmt_x mac.

Definition parseUploadedSize (rng : string) : Z :=
  if String.eqb rng "" then 0
  else
    match strings_Split rng "-" with
    | [_; p1] =>
        let last := match fmt_Sscanf_d p1 with Some v => v | None => 0 end in
        wrap_int64 (last + 1)
    | _ => 0
    end.

(** The manifest literal of [putByTag]. *)
Definition putByTag_manifest (payloadDigest : string) (size : Z) (cfgDigest : string)
  : ociManifest :=
  {| SchemaVersion := 2;
     MediaType := manifestMediaType;
     Config := {| d_MediaType := configMediaType;
                  d_Digest := cfgDigest;
                  d_Size := Z.of_nat (String.length "{}") |};
     Layers := [ {| d_MediaType := layerMediaType;
                    d_Digest := payloadDigest;
                    d_Size := size |} ] |}.

(** The body of the loop of [listByPrefix]: what one tag adds to [out]. *)
Definition listByPrefix_step (prefix : string) (out : list MAC) (t : string) : list MAC :=
  if strings_HasPrefix t prefix then
    match hex_DecodeString (strings_TrimPrefix t prefix) with
    | Ok b => if (length b =? 32)%nat then out ++ [firstn 32 b] else out
    | Err _ => out
    end
  else out.

(** The end bound and the header of a ranged [Get]. *)
Definition Get_range_header (rg : Range) : Header :=
  let end_ := wrap_uint64 (Offset rg + wrap_uint64 (Length rg) - 1) in
  Header_Set ∅ "Range" ("bytes=" +:+ fmt_d (Offset rg) +:+ "-" +:+ fmt_d end_).

(** The test [resp.StatusCode >= 200 && resp.StatusCode < 300]. *)
Definition is_2xx (code : Z) : bool := (200 <=? code) && (code <? 300).

Section Store.
Context {Url : NetURL} {Json : EncodingJSON} {Tr : Transport}.

(** [New]: the store handle of a configuration map. *)
Definition New (config : gmap string string) : result ociStore :=
  let loc := strings_TrimPrefix (default EmptyString (config !! "location")) "oci://" in
  match url_Parse ("http://" +:+ loc) with
  | Err e => Err e
  | Ok u =>
      let repo := strings_Trim (Path u) "/" in
      if String.eqb repo "" then Err (Errorf "need a repo")
      else
        let u := URL_set_Path u "" in
        let base := strings_TrimRight (URL_String u) "/" in
        Ok {| base := base;
              repo := repo;
              client := {| InsecureSkipVerify := true; Timeout := 0 |} |}
  end.

(** ** The network monad *)

(** One entry of the log: a request handed to [client.Do] and what came
    back. *)
Definition Exchange : Type := Request * result Response.

Record Net : Type := {
  world : World;
  log : list Exchange;
}.

Definition M (A : Type) : Type := Net -> result A * Net.

Definition ret {A} (a : A) : M A := fun n => (Ok a, n).
Definition fail {A} (e : error) : M A := fun n => (Err e, n).
Definition lift {A} (r : result A) : M A := fun n => (r, n).
Definition bind {A B} (m : M A) (k : A -> M B) : M B :=
  fun n =>
    match m n with
    | (Ok a, n') => k a n'
    | (Err e, n') => (Err e, n')
    end.

Notation "'let*' x ':=' m 'in' k" := (bind m (fun x => k))
  (at level 10, x pattern, m at level 100, k at level 200).

(** [http.NewRequestWithContext]: the methods of the store are valid, so
    the only failure is a URL that does not parse. *)
Definition http_NewRequest (method fullURL : string) (body : option bytes)
  : result Request :=
  match url_Parse fullURL with
  | Err e => Err e
  | Ok _ => Ok {| req_Method := method; req_URL := fullURL; req_Body := body;
                  req_Header := ∅ |}
  end.

Definition Request_with_Header (req : Request) (h : Header) : Request :=
  {| req_Method := req_Method req; req_URL := req_URL req;
     req_Body := req_Body req; req_Header := h |}.

(** ** OCI HTTP primitives *)

Definition baseURL (s : ociStore) (p : string) : string := base s +:+ "/v2/" +:+ p.

Definition repoBase (s : ociStore) : string := repo s.

(** [do]: one request.  A 2xx answer yields the body and the response; any
    other status is an error that carries at most 64 KiB of the body. *)
Definition do (s : ociStore) (method fullURL : string) (body : option bytes)
  (headers : Header) : M (bytes * Response) :=
  fun n =>
    match http_NewRequest method fullURL body with
    | Err e => (Err e, n)
    | Ok req =>
        let req := Request_with_Header req (Header_AddAll (req_Header req) headers) in
        let '(r, w) := client_Do (client s) req (world n) in
        let n' := {| world := w; log := log n ++ [(req, r)] |} in
        match r with
        | Err e => (Err e, n')
        | Ok resp =>
            if is_2xx (resp_StatusCode resp)
            then (Ok (resp_Body resp, resp), n')
            else
              let b := firstn (Z.to_nat (64 * 2 ^ 10)) (resp_Body resp) in
              (Err (ErrStatus method fullURL (resp_Status resp)
                      (strings_TrimSpace (string_of_bytes b))), n')
        end
    end.

Definition doRepo (s : ociStore) (method p : string) (body : option bytes)
  (headers : Header) : M Response :=
  let* (_, resp) := do s method (baseURL s (repoBase s +:+ p)) body headers in
  ret resp.

Definition doRepoRC (s : ociStore) (method p : string) (body : option bytes)
  (headers : Header) : M (bytes * Response) :=
  do s method (baseURL s (repoBase s +:+ p)) body headers.

Definition doRepoBlobRC (s : ociStore) (digest : string) (headers : Header) : M bytes :=
  let* (rc, _) := do s "GET" (baseURL s (repoBase s +:+ "/blobs/" +:+ digest)) None headers in
  ret rc.

Definition headManifestDigest (s : ociStore) (ref : string) : M string :=
  let h := Header_Set ∅ "Accept" manifestAccept in
  let* resp := doRepo s "HEAD" ("/manifests/" +:+ ref) None h in
  let d := Header_Get (resp_Header resp) "Docker-Content-Digest" in
  if String.eqb d "" then fail (Errorf "missing Docker-Content-Digest header on HEAD manifest")
  else ret d.

Definition resolveLocation (s : ociStore) (loc : string) : result string :=
  match url_Parse (strings_TrimRight (base s) "/") with
  | Err e => Err e
  | Ok base =>
      match url_Parse loc with
      | Err e => Err e
      | Ok ref => Ok (URL_String (URL_ResolveReference base ref))
      end
  end.

(** [uploadBlob]: POST to open a session, PATCH the payload through the
    hash, PUT to the latest session location with the digest. *)
Definition uploadBlob (s : ociStore) (rd : bytes) : M (string * Z) :=
  let* resp := doRepo s "POST" "/blobs/uploads/" None ∅ in
  let loc := Header_Get (resp_Header resp) "Location" in
  if String.eqb loc "" then fail (Errorf "registry missing Location on upload start")
  else
    let* uploadURL := lift (resolveLocation s loc) in
    let patchHeaders := Header_Set ∅ "Content-Type" "application/octet-stream" in
    let* (_, resp2) := do s "PATCH" uploadURL (Some rd) patchHeaders in
    let loc2 := Header_Get (resp_Header resp2) "Location" in
    let* uploadURL :=
      (if negb (String.eqb loc2 "") then lift (resolveLocation s loc2)
       else ret uploadURL) in
    let size := parseUploadedSize (Header_Get (resp_Header resp2) "Range") in
    let sum := sha256.Sum rd in
    let digest := "sha256:" +:+ fmt_x sum in
    let finalURL :=
      if strings_Contains uploadURL "?"
      then uploadURL +:+ "&digest=" +:+ url_QueryEscape digest
      else uploadURL +:+ "?digest=" +:+ url_QueryEscape digest in
    let* _ := do s "PUT" finalURL None ∅ in
    ret (digest, size).

(** ** Core: blob upload + manifest (tag) *)

Definition putByTag (s : ociStore) (tag : string) (rd : bytes) : M Z :=
  let* (payloadDigest, size) := uploadBlob s rd in
  let* (cfgDigest, _) := uploadBlob s (bytes_of_string "{}") in
  let man := putByTag_manifest payloadDigest size cfgDigest in
  let* body := lift (json_Marshal_ociManifest man) in
  let h := Header_Set ∅ "Content-Type" manifestMediaType in
  let* _ := doRepo s "PUT" ("/manifests/" +:+ tag) (Some body) h in
  ret size.

Definition getByTag (s : ociStore) (tag : string) (extraHeaders : Header) : M bytes :=
  let h := Header_Set ∅ "Accept" manifestAccept in
  let* (manifestRC, _) := doRepoRC s "GET" ("/manifests/" +:+ tag) None h in
  match json_Decode_ociManifest manifestRC with
  | Err e => fail (ErrWrap "decode manifest" e)
  | Ok man =>
      match Layers man with
      | [] => fail (Errorf "manifest has no layers")
      | layer :: _ =>
          if String.eqb (d_Digest layer) "" then fail (Errorf "manifest layer digest missing")
          else
            let h2 := Header_AddAll ∅ extraHeaders in
            doRepoBlobRC s (d_Digest layer) h2
      end
  end.

Definition deleteByTag (s : ociStore) (tag : string) : M unit :=
  let* digest := headManifestDigest s tag in
  let* _ := doRepo s "DELETE" ("/manifests/" +:+ digest) None ∅ in
  ret tt.

Definition listByPrefix (s : ociStore) (prefix : string) : M (list MAC) :=
  let* (rc, _) := doRepoRC s "GET" "/tags/list" None ∅ in
  let* tl := lift (json_Decode_tagsList rc) in
  ret (fold_left (listByPrefix_step prefix) (Tags tl) []).

(** ** The [storage.Store] methods *)

Definition Create (s : ociStore) (config : bytes) : M unit :=
  let* _ := putByTag s "CONFIG" config in
  ret tt.

Definition Open (s : ociStore) : M bytes := getByTag s "CONFIG" ∅.

Definition Location (s : ociStore) : result string :=
  Ok (strings_Replace1 (base s) "http://" "oci://").

(** [Mode] returns [storage.ModeRead | storage.ModeWrite]; the two bits
    are constants of kloset. *)
Definition Mode (ModeRead ModeWrite : Z) (s : ociStore) : result Z :=
  Ok (Z.lor ModeRead ModeWrite).
Definition Flags (s : ociStore) : Z := 0.
Definition Origin (s : ociStore) : string := repo s.
Definition Type_ (s : ociStore) : string := "oci".
Definition Root (s : ociStore) : string := base s.
Definition Size (s : ociStore) : result Z := Ok (-1).
Definition Close (s : ociStore) : M unit := ret tt.
Definition Ping (s : ociStore) : M unit := ret tt.

Definition List (s : ociStore) (res : StorageResource) : M (list MAC) :=
  match resource_prefix res with
  | None => fail ErrUnsupported
  | Some prefix => listByPrefix s prefix
  end.

Definition Put (s : ociStore) (res : StorageResource) (mac : MAC) (rd : bytes) : M Z :=
  match resource_prefix res with
  | None => fail ErrUnsupported
  | Some prefix => putByTag s (tag_of prefix mac) rd
  end.

Definition Get (s : ociStore) (res : StorageResource) (mac : MAC) (rg : option Range)
  : M bytes :=
  match resource_prefix res with
  | None => fail ErrUnsupported
  | Some prefix =>
      let h := match rg with
               | Some rg => Get_range_header rg
               | None => ∅
               end in
      getByTag s (tag_of prefix mac) h
  end.

Definition Delete (s : ociStore) (res : StorageResource) (mac : MAC) : M unit :=
  match resource_prefix res with
  | None => fail ErrUnsupported
  | Some prefix => deleteByTag s (tag_of prefix mac)
  end.

End Store.

(** The six category-scoped and lifecycle calls of the [storage.Store]
    interface that reach the network, and what each yields: the error, the
    state after it. *)
Inductive Call : Type :=
| CallCreate (config : bytes)
| CallOpen
| CallList (res : StorageResource)
| CallPut (res : StorageResource) (mac : MAC) (rd : bytes)
| CallGet (res : StorageResource) (mac : MAC) (rg : option Range)
| CallDelete (res : StorageResource) (mac : MAC).

Definition err_of {A} (r : result A) : option error :=
  match r with Ok _ => None | Err e => Some e end.

Section Calls.
Context {Url : NetURL} {Json : EncodingJSON} {Tr : Transport}.

Definition perform (s : ociStore) (c : Call) (n : Net) : option error * Net :=
  match c with
  | CallCreate config => let '(r, n') := Create s config n in (err_of r, n')
  | CallOpen => let '(r, n') := Open s n in (err_of r, n')
  | CallList res => let '(r, n') := List s res n in (err_of r, n')
  | CallPut res mac rd => let '(r, n') := Put s res mac rd n in (err_of r, n')
  | CallGet res mac rg => let '(r, n') := Get s res mac rg n in (err_of r, n')
  | CallDelete res mac => let '(r, n') := Delete s res mac n in (err_of r, n')
  end.

End Calls.

(** * Concrete environments *)

(** ** A model of [net/url]

    [Parse], [String] and [ResolveReference] on the URLs that need no
    percent-decoding: no user information, no bracketed host, and path and
    fragment made of characters the printer leaves as they are.  On these
    the functions below follow the library step by step; every other input
    is refused with an error. *)
Module neturl.

Definition is_ctl (c : ascii) : bool :=
  let n := N_of_ascii c in ((n <? 32) || (n =? 127))%N.

Fixpoint string_existsb (f : ascii -> bool) (s : string) : bool :=
  match s with
  | EmptyString => false
  | String c s' => f c || string_existsb f s'
  end.

(** [strings.Cut s sep] for a one-byte separator. *)
Fixpoint Cut (s : string) (sep : ascii) : string * string * bool :=
  match s with
  | EmptyString => (EmptyString, EmptyString, false)
  | String c s' =>
      if Ascii.eqb c sep then (EmptyString, s', true)
      else let '(a, b, found) := Cut s' sep in (String c a, b, found)
  end.

Fixpoint Count (s : string) (c : ascii) : nat :=
  match s with
  | EmptyString => O
  | String d s' => ((if Ascii.eqb c d then 1 else 0) + Count s' c)%nat
  end.

Fixpoint HasSuffix1 (s : string) (c : ascii) : bool :=
  match s with
  | EmptyString => false
  | String d EmptyString => Ascii.eqb c d
  | String _ s' => HasSuffix1 s' c
  end.

Fixpoint drop_last (s : string) : string :=
  match s with
  | EmptyString => EmptyString
  | String _ EmptyString => EmptyString
  | String c s' => String c (drop_last s')
  end.

Fixpoint ToLower (s : string) : string :=
  match s with
  | EmptyString => EmptyString
  | String c s' => String (to_lower c) (ToLower s')
  end.

Inductive scheme_split : Type :=
| SchemeMissing
| SchemeNone
| SchemeSome (scheme rest : string).

Fixpoint getScheme_from (i : nat) (seen : list ascii) (s : string) : scheme_split :=
  match s with
  | EmptyString => SchemeNone
  | String c s' =>
      if is_lower c || is_upper c then getScheme_from (S i) (c :: seen) s'
      else if is_digit c || in_cutset c "+-." then
        match i with O => SchemeNone | _ => getScheme_from (S i) (c :: seen) s' end
      else if Ascii.eqb c ":" then
        match i with
        | O => SchemeMissing
        | _ => SchemeSome (string_of_list_ascii (rev seen)) s'
        end
      else SchemeNone
  end.

Definition getScheme (rawURL : string) : scheme_split := getScheme_from O [] rawURL.

(** [validOptionalPort] on the part of the host from its last colon. *)
Fixpoint after_last_colon (s : string) (cur : option string) : option string :=
  match s with
  | EmptyString => cur
  | String c s' =>
      if Ascii.eqb c ":" then after_last_colon s' (Some EmptyString)
      else after_last_colon s' (option_map (fun t => t +:+ String c EmptyString) cur)
  end.

(** Host bytes that [unescape] in host mode lets through unchanged. *)
Definition host_byte (c : ascii) : bool :=
  is_alnum c || in_cutset c "-_.~!$&'()*+,;=:<>" || Ascii.eqb c (ascii_of_nat 34).

Definition parseHost (host : string) : result string :=
  if strings_HasPrefix host "[" then Err (ErrLib "url" "bracketed host: outside the model")
  else
    match after_last_colon host None with
    | Some port =>
        if string_forallb is_digit port
        then if string_forallb host_byte host then Ok host
             else Err (ErrLib "url" "invalid character in host name")
        else Err (ErrLib "url" "invalid port after host")
    | None =>
        if string_forallb host_byte host then Ok host
        else Err (ErrLib "url" "invalid character in host name")
    end.

Definition parseAuthority (authority : string) : result string :=
  if strings_Contains authority "@"
  then Err (ErrLib "url" "user information: outside the model")
  else parseHost authority.

(** Path bytes that [escape] in path mode leaves as they are, so that
    [setPath] stores the path with an empty [RawPath]. *)
Definition path_byte (c : ascii) : bool :=
  is_alnum c || in_cutset c "-_.~$&+,/:;=@".

Definition fragment_byte (c : ascii) : bool := path_byte c || Ascii.eqb c "?".

Definition empty_URL : URL :=
  {| Scheme := EmptyString; Opaque := EmptyString; User := None; Host := EmptyString;
     Path := EmptyString; RawPath := EmptyString; OmitHost := false;
     ForceQuery := false; RawQuery := EmptyString; Fragment := EmptyString;
     RawFragment := EmptyString |}.

Definition setPath (u : URL) (p : string) : result URL :=
  if string_forallb path_byte p then Ok (URL_set_Path u p)
  else Err (ErrLib "url" "path needs escaping: outside the model").

(** [parse rawURL false]. *)
Definition parse (rawURL : string) : result URL :=
  if string_existsb is_ctl rawURL
  then Err (ErrLib "url" "invalid control character in URL")
  else if String.eqb rawURL "*"
  then Ok (URL_set_Path empty_URL "*")
  else
    match getScheme rawURL with
    | SchemeMissing => Err (ErrLib "url" "missing protocol scheme")
    | split =>
        let '(scheme, rest) :=
          match split with
          | SchemeSome sc r => (ToLower sc, r)
          | _ => (EmptyString, rawURL)
          end in
        let '(force, rest, query) :=
          if HasSuffix1 rest "?" && (Count rest "?" =? 1)%nat
          then (true, drop_last rest, EmptyString)
          else let '(a, b, _) := Cut rest "?" in (false, a, b) in
        let u0 :=
          {| Scheme := scheme; Opaque := EmptyString; User := None;
             Host := EmptyString; Path := EmptyString; RawPath := EmptyString;
             OmitHost := false; ForceQuery := force; RawQuery := query;
             Fragment := EmptyString; RawFragment := EmptyString |} in
        if negb (strings_HasPrefix rest "/") && negb (String.eqb scheme "")
        then Ok {| Scheme := scheme; Opaque := rest; User := None;
                   Host := EmptyString; Path := EmptyString; RawPath := EmptyString;
                   OmitHost := false; ForceQuery := force; RawQuery := query;
                   Fragment := EmptyString; RawFragment := EmptyString |}
        else if negb (strings_HasPrefix rest "/")
                && strings_Contains (fst (fst (Cut rest "/"))) ":"
        then Err (ErrLib "url" "first path segment in URL cannot contain colon")
        else if (negb (String.eqb scheme "") || negb (strings_HasPrefix rest "///"))
                && strings_HasPrefix rest "//"
        then
          let '(authority, tail, found) := Cut (string_drop 2 rest) "/" in
          let rest' := if found then String "/" tail else EmptyString in
          match parseAuthority authority with
          | Err e => Err e
          | Ok host =>
              setPath {| Scheme := scheme; Opaque := EmptyString; User := None;
                         Host := host; Path := EmptyString; RawPath := EmptyString;
                         OmitHost := false; ForceQuery := force; RawQuery := query;
                         Fragment := EmptyString; RawFragment := EmptyString |} rest'
          end
        else if negb (String.eqb scheme "") && strings_HasPrefix rest "/"
        then
          setPath {| Scheme := scheme; Opaque := EmptyString; User := None;
                     Host := EmptyString; Path := EmptyString; RawPath := EmptyString;
                     OmitHost := true; ForceQuery := force; RawQuery := query;
                     Fragment := EmptyString; RawFragment := EmptyString |} rest
        else setPath u0 rest
    end.

Definition setFragment (u : URL) (f : string) : result URL :=
  if string_forallb fragment_byte f
  then Ok {| Scheme := Scheme u; Opaque := Opaque u; User := User u; Host := Host u;
             Path := Path u; RawPath := RawPath u; OmitHost := OmitHost u;
             ForceQuery := ForceQuery u; RawQuery := RawQuery u;
             Fragment := f; RawFragment := EmptyString |}
  else Err (ErrLib "url" "fragment needs escaping: outside the model").

Definition Parse (rawURL : string) : result URL :=
  let '(u, frag, _) := Cut rawURL "#" in
  match parse u with
  | Err e => Err e
  | Ok url => if String.eqb frag "" then Ok url else setFragment url frag
  end.

(** [EscapedPath] and [EscapedFragment] are the identity on the URLs of
    the model. *)
Definition String_ (u : URL) : string :=
  let scheme := if String.eqb (Scheme u) "" then EmptyString else Scheme u +:+ ":" in
  let body :=
    if negb (String.eqb (Opaque u) "") then Opaque u
    else
      let auth :=
        if negb (String.eqb (Scheme u) "") || negb (String.eqb (Host u) "")
        then
          if OmitHost u && String.eqb (Host u) "" then EmptyString
          else
            (if negb (String.eqb (Host u) "") || negb (String.eqb (Path u) "")
             then "//" else EmptyString) +:+ Host u
        else EmptyString in
      let path := Path u in
      let slash :=
        if negb (String.eqb path "") && negb (strings_HasPrefix path "/")
           && negb (String.eqb (Host u) "")
        then "/" else EmptyString in
      let dot :=
        if String.eqb (scheme +:+ auth +:+ slash) ""
           && strings_Contains (fst (fst (Cut path "/"))) ":"
        then "./" else EmptyString in
      auth +:+ slash +:+ dot +:+ path in
  let query :=
    if ForceQuery u || negb (String.eqb (RawQuery u) "")
    then "?" +:+ RawQuery u else EmptyString in
  let frag :=
    if negb (String.eqb (Fragment u) "") then "#" +:+ Fragment u else EmptyString in
  scheme +:+ body +:+ query +:+ frag.

(** The segments of a path, split at every slash. *)
Definition segments (p : string) : list string := strings_Split p "/".

(** [str[:strings.LastIndexByte(str, '/')]], [None] when [str] has no
    slash. *)
Fixpoint before_last_slash (str : string) : option string :=
  match str with
  | EmptyString => None
  | String c str' =>
      match before_last_slash str' with
      | Some r => Some (String c r)
      | None => if Ascii.eqb c "/" then Some EmptyString else None
      end
  end.

(** The loop of [resolvePath]: [str] is what has been written after the
    leading slash, [first] tells whether the next segment is written
    without a separating slash. *)
Fixpoint resolve_loop (elems : list string) (str : string) (first : bool) : string :=
  match elems with
  | [] => str
  | e :: elems' =>
      if String.eqb e "." then resolve_loop elems' str false
      else if String.eqb e ".." then
        match before_last_slash str with
        | None => resolve_loop elems' EmptyString true
        | Some keep => resolve_loop elems' keep first
        end
      else resolve_loop elems' (str +:+ (if first then EmptyString else "/") +:+ e) false
  end.

Fixpoint last_segment (l : list string) : string :=
  match l with
  | [] => EmptyString
  | [x] => x
  | _ :: l' => last_segment l'
  end.

(** [base[:strings.LastIndex(base, "/")+1]]. *)
Fixpoint dir_of (p : string) : string :=
  match p with
  | EmptyString => EmptyString
  | String c p' =>
      if strings_Contains p "/" then String c (dir_of p') else EmptyString
  end.

Definition resolvePath (base ref : string) : string :=
  let full :=
    if String.eqb ref "" then base
    else if negb (strings_HasPrefix ref "/") then dir_of base +:+ ref
    else ref in
  if String.eqb full "" then EmptyString
  else
    let elems := segments full in
    let str := resolve_loop elems EmptyString true in
    let last := last_segment elems in
    let r := "/" +:+ str
             +:+ (if String.eqb last "." || String.eqb last ".." then "/" else EmptyString) in
    if strings_HasPrefix r "//" then string_drop 1 r else r.

Definition ResolveReference (u ref : URL) : URL :=
  let scheme := if String.eqb (Scheme ref) "" then Scheme u else Scheme ref in
  if negb (String.eqb (Scheme ref) "") || negb (String.eqb (Host ref) "")
  then
    {| Scheme := scheme; Opaque := Opaque ref; User := User ref; Host := Host ref;
       Path := resolvePath (Path ref) EmptyString; RawPath := EmptyString;
       OmitHost := OmitHost ref; ForceQuery := ForceQuery ref;
       RawQuery := RawQuery ref; Fragment := Fragment ref;
       RawFragment := RawFragment ref |}
  else if negb (String.eqb (Opaque ref) "")
  then
    {| Scheme := scheme; Opaque := Opaque ref; User := None; Host := EmptyString;
       Path := EmptyString; RawPath := RawPath ref; OmitHost := OmitHost ref;
       ForceQuery := ForceQuery ref; RawQuery := RawQuery ref;
       Fragment := Fragment ref; RawFragment := RawFragment ref |}
  else
    let inherit := String.eqb (Path ref) "" && negb (ForceQuery ref)
                   && String.eqb (RawQuery ref) "" in
    let query := if inherit then RawQuery u else RawQuery ref in
    let frag := if inherit && String.eqb (Fragment ref) "" then Fragment u
                else Fragment ref in
    if String.eqb (Path ref) "" && negb (String.eqb (Opaque u) "")
    then
      {| Scheme := scheme; Opaque := Opaque u; User := None; Host := EmptyString;
         Path := EmptyString; RawPath := EmptyString; OmitHost := OmitHost ref;
         ForceQuery := ForceQuery ref; RawQuery := query; Fragment := frag;
         RawFragment := EmptyString |}
    else
      {| Scheme := scheme; Opaque := Opaque ref; User := User u; Host := Host u;
         Path := resolvePath (Path u) (Path ref); RawPath := EmptyString;
         OmitHost := OmitHost ref; ForceQuery := ForceQuery ref; RawQuery := query;
         Fragment := frag; RawFragment := EmptyString |}.

End neturl.

#[local] Instance GoURL : NetURL := {
  url_Parse := neturl.Parse;
  URL_String := neturl.String_;
  URL_ResolveReference := neturl.ResolveReference;
}.

(** ** A model of [encoding/json]

    The encoder writes what [json.Marshal] writes for strings that need no
    escape; the decoder reads one JSON value made of objects, arrays,
    strings without escapes, integers, [true], [false] and [null], and fills
    a struct the way [Decode] does: keys are matched to fields without
    regard to case, unknown keys are skipped, [null] leaves a field at its
    zero value, a value of the wrong kind is an error.  Other inputs are
    refused with an error. *)
Module json.

#[warnings="-register-all"]
Inductive value : Type :=
| JNull
| JBool (b : bool)
| JNum (z : Z)
| JStr (s : string)
| JArr (l : list value)
| JObj (l : list (string * value)).

Definition dquote : ascii := ascii_of_nat 34.

Definition plain_byte (c : ascii) : bool :=
  let n := N_of_ascii c in
  ((32 <=? n) && (n <=? 126))%N && negb (in_cutset c "\<>&") && negb (Ascii.eqb c dquote).

Definition quote (s : string) : string :=
  String dquote (s +:+ String dquote EmptyString).

Definition enc_string (s : string) : result string :=
  if string_forallb plain_byte s then Ok (quote s)
  else Err (ErrLib "json" "string needs escaping: outside the model").

Definition enc_descriptor (d : descriptor) : result string :=
  match enc_string (d_MediaType d), enc_string (d_Digest d) with
  | Ok mt, Ok dg =>
      Ok ("{" +:+ quote "mediaType" +:+ ":" +:+ mt +:+ ","
              +:+ quote "digest" +:+ ":" +:+ dg +:+ ","
              +:+ quote "size" +:+ ":" +:+ fmt_d (d_Size d) +:+ "}")
  | Err e, _ => Err e
  | _, Err e => Err e
  end.

Fixpoint enc_list {A} (enc : A -> result string) (l : list A) : result string :=
  match l with
  | [] => Ok EmptyString
  | x :: l' =>
      match enc x, enc_list enc l' with
      | Ok a, Ok b =>
          Ok (a +:+ (match l' with [] => EmptyString | _ => "," end) +:+ b)
      | Err e, _ => Err e
      | _, Err e => Err e
      end
  end.

Definition Marshal_ociManifest (m : ociManifest) : result bytes :=
  match enc_string (MediaType m), enc_descriptor (Config m),
        enc_list enc_descriptor (Layers m) with
  | Ok mt, Ok cfg, Ok layers =>
      Ok (bytes_of_string
            ("{" +:+ quote "schemaVersion" +:+ ":" +:+ fmt_d (SchemaVersion m) +:+ ","
                 +:+ quote "mediaType" +:+ ":" +:+ mt +:+ ","
                 +:+ quote "config" +:+ ":" +:+ cfg +:+ ","
                 +:+ quote "layers" +:+ ":[" +:+ layers +:+ "]}"))
  | Err e, _, _ => Err e
  | _, Err e, _ => Err e
  | _, _, Err e => Err e
  end.

Definition Marshal_tagsList (t : tagsList) : result bytes :=
  match enc_string (Name t), enc_list enc_string (Tags t) with
  | Ok name, Ok tags =>
      Ok (bytes_of_string
            ("{" +:+ quote "name" +:+ ":" +:+ name +:+ ","
                 +:+ quote "tags" +:+ ":[" +:+ tags +:+ "]}"))
  | Err e, _ => Err e
  | _, Err e => Err e
  end.

(** *** Reading *)

Definition is_ws (c : ascii) : bool :=
  let n := N_of_ascii c in ((n =? 32) || (n =? 9) || (n =? 10) || (n =? 13))%N.

Fixpoint skip_ws (s : string) : string :=
  match s with
  | String c s' => if is_ws c then skip_ws s' else s
  | EmptyString => EmptyString
  end.

(** After the opening quote: the string up to the closing quote. *)
Fixpoint read_string (s : string) : option (string * string) :=
  match s with
  | EmptyString => None
  | String c s' =>
      if Ascii.eqb c dquote then Some (EmptyString, s')
      else if Ascii.eqb c "\" || neturl.is_ctl c then None
      else match read_string s' with
           | Some (x, r) => Some (String c x, r)
           | None => None
           end
  end.

Fixpoint read_digits (acc : Z) (s : string) : Z * string :=
  match s with
  | String c s' =>
      if is_digit c then read_digits (10 * acc + Z.of_N (N_of_ascii c - 48)) s'
      else (acc, s)
  | EmptyString => (acc, s)
  end.

Definition number_end (s : string) : bool :=
  match s with
  | String c _ => negb (in_cutset c ".eE")
  | EmptyString => true
  end.

Definition read_number (s : string) : option (Z * string) :=
  let '(neg, s1) := match s with String "-" r => (true, r) | _ => (false, s) end in
  match s1 with
  | String c r =>
      if is_digit c then
        if Ascii.eqb c "0" && negb (number_end r && match r with
                                                    | String d _ => negb (is_digit d)
                                                    | EmptyString => true
                                                    end)
        then None
        else
          let '(v, r') := read_digits 0 s1 in
          if number_end r' then Some (if neg then - v else v, r') else None
      else None
  | EmptyString => None
  end.

Fixpoint read_value (fuel : nat) (s : string) : option (value * string) :=
  match fuel with
  | O => None
  | S f =>
      match skip_ws s with
      | String c r =>
          if Ascii.eqb c "{" then
            match skip_ws r with
            | String "}" r' => Some (JObj [], r')
            | r' => read_members f r' []
            end
          else if Ascii.eqb c "[" then
            match skip_ws r with
            | String "]" r' => Some (JArr [], r')
            | r' => read_items f r' []
            end
          else if Ascii.eqb c dquote then
            match read_string r with
            | Some (x, r') => Some (JStr x, r')
            | None => None
            end
          else if strings_HasPrefix (String c r) "true"
          then Some (JBool true, string_drop 4 (String c r))
          else if strings_HasPrefix (String c r) "false"
          then Some (JBool false, string_drop 5 (String c r))
          else if strings_HasPrefix (String c r) "null"
          then Some (JNull, string_drop 4 (String c r))
          else
            match read_number (String c r) with
            | Some (z, r') => Some (JNum z, r')
            | None => None
            end
      | EmptyString => None
      end
  end
with read_members (fuel : nat) (s : string) (acc : list (string * value))
  : option (value * string) :=
  match fuel with
  | O => None
  | S f =>
      match skip_ws s with
      | String c r =>
          if Ascii.eqb c dquote then
            match read_string r with
            | Some (k, r1) =>
                match skip_ws r1 with
                | String ":" r2 =>
                    match read_value f r2 with
                    | Some (v, r3) =>
                        match skip_ws r3 with
                        | String "," r4 => read_members f r4 (acc ++ [(k, v)])
                        | String "}" r4 => Some (JObj (acc ++ [(k, v)]), r4)
                        | _ => None
                        end
                    | None => None
                    end
                | _ => None
                end
            | None => None
            end
          else None
      | EmptyString => None
      end
  end
with read_items (fuel : nat) (s : string) (acc : list value)
  : option (value * string) :=
  match fuel with
  | O => None
  | S f =>
      match read_value f s with
      | Some (v, r) =>
          match skip_ws r with
          | String "," r' => read_items f r' (acc ++ [v])
          | String "]" r' => Some (JArr (acc ++ [v]), r')
          | _ => None
          end
      | None => None
      end
  end.

(** The first JSON value of a stream. *)
Definition read (b : bytes) : result value :=
  let s := string_of_bytes b in
  match read_value (S (String.length s)) s with
  | Some (v, _) => Ok v
  | None => Err (ErrLib "json" "syntax error or unexpected end of input")
  end.

(** *** Filling structs *)

Definition key_is (k field : string) : bool :=
  String.eqb (neturl.ToLower k) (neturl.ToLower field).

Definition mismatch {A} : result A :=
  Err (ErrLib "json" "cannot unmarshal value into Go struct field").

Definition as_string (old : string) (v : value) : result string :=
  match v with JStr s => Ok s | JNull => Ok old | _ => mismatch end.

Definition as_int (old : Z) (v : value) : result Z :=
  match v with JNum z => Ok z | JNull => Ok old | _ => mismatch end.

Definition zero_descriptor : descriptor :=
  {| d_MediaType := EmptyString; d_Digest := EmptyString; d_Size := 0 |}.

Definition set_descriptor_field (d : descriptor) (kv : string * value)
  : result descriptor :=
  let '(k, v) := kv in
  if key_is k "mediaType" then
    match as_string (d_MediaType d) v with
    | Ok x => Ok {| d_MediaType := x; d_Digest := d_Digest d; d_Size := d_Size d |}
    | Err e => Err e
    end
  else if key_is k "digest" then
    match as_string (d_Digest d) v with
    | Ok x => Ok {| d_MediaType := d_MediaType d; d_Digest := x; d_Size := d_Size d |}
    | Err e => Err e
    end
  else if key_is k "size" then
    match as_int (d_Size d) v with
    | Ok x => Ok {| d_MediaType := d_MediaType d; d_Digest := d_Digest d; d_Size := x |}
    | Err e => Err e
    end
  else Ok d.

Fixpoint fill {A B} (set : A -> B -> result A) (a : A) (l : list B) : result A :=
  match l with
  | [] => Ok a
  | x :: l' =>
      match set a x with
      | Ok a' => fill set a' l'
      | Err e => Err e
      end
  end.

Definition as_descriptor (old : descriptor) (v : value) : result descriptor :=
  match v with
  | JObj l => fill set_descriptor_field old l
  | JNull => Ok old
  | _ => mismatch
  end.

Fixpoint map_result {A B} (f : A -> result B) (l : list A) : result (list B) :=
  match l with
  | [] => Ok []
  | x :: l' =>
      match f x, map_result f l' with
      | Ok y, Ok r => Ok (y :: r)
      | Err e, _ => Err e
      | _, Err e => Err e
      end
  end.

Definition set_ociManifest_field (m : ociManifest) (kv : string * value)
  : result ociManifest :=
  let '(k, v) := kv in
  if key_is k "schemaVersion" then
    match as_int (SchemaVersion m) v with
    | Ok x => Ok {| SchemaVersion := x; MediaType := MediaType m;
                    Config := Config m; Layers := Layers m |}
    | Err e => Err e
    end
  else if key_is k "mediaType" then
    match as_string (MediaType m) v with
    | Ok x => Ok {| SchemaVersion := SchemaVersion m; MediaType := x;
                    Config := Config m; Layers := Layers m |}
    | Err e => Err e
    end
  else if key_is k "config" then
    match as_descriptor (Config m) v with
    | Ok x => Ok {| SchemaVersion := SchemaVersion m; MediaType := MediaType m;
                    Config := x; Layers := Layers m |}
    | Err e => Err e
    end
  else if key_is k "layers" then
    match v with
    | JArr l =>
        match map_result (as_descriptor zero_descriptor) l with
        | Ok x => Ok {| SchemaVersion := SchemaVersion m; MediaType := MediaType m;
                        Config := Config m; Layers := x |}
        | Err e => Err e
        end
    | JNull => Ok m
    | _ => mismatch
    end
  else Ok m.

Definition zero_ociManifest : ociManifest :=
  {| SchemaVersion := 0; MediaType := EmptyString; Config := zero_descriptor;
     Layers := [] |}.

Definition Decode_ociManifest (b : bytes) : result ociManifest :=
  match read b with
  | Err e => Err e
  | Ok (JObj l) => fill set_ociManifest_field zero_ociManifest l
  | Ok JNull => Ok zero_ociManifest
  | Ok _ => mismatch
  end.

Definition set_tagsList_field (t : tagsList) (kv : string * value) : result tagsList :=
  let '(k, v) := kv in
  if key_is k "name" then
    match as_string (Name t) v with
    | Ok x => Ok {| Name := x; Tags := Tags t |}
    | Err e => Err e
    end
  else if key_is k "tags" then
    match v with
    | JArr l =>
        match map_result (as_string EmptyString) l with
        | Ok x => Ok {| Name := Name t; Tags := x |}
        | Err e => Err e
        end
    | JNull => Ok t
    | _ => mismatch
    end
  else Ok t.

Definition zero_tagsList : tagsList := {| Name := EmptyString; Tags := [] |}.

Definition Decode_tagsList (b : bytes) : result tagsList :=
  match read b with
  | Err e => Err e
  | Ok (JObj l) => fill set_tagsList_field zero_tagsList l
  | Ok JNull => Ok zero_tagsList
  | Ok _ => mismatch
  end.

End json.

#[local] Instance GoJSON : EncodingJSON := {
  json_Marshal_ociManifest := json.Marshal_ociManifest;
  json_Decode_ociManifest := json.Decode_ociManifest;
  json_Decode_tagsList := json.Decode_tagsList;
}.

(** ** A scripted transport

    The remote side is a list of canned answers, handed out one per
    request; when the script is exhausted the connection fails. *)
Definition scripted_Do (c : httpClient) (req : Request) (w : list (result Response))
  : result Response * list (result Response) :=
  match w with
  | [] => (Err (ErrLib "net" "connection refused"), [])
  | r :: w' => (r, w')
  end.

#[local] Instance Scripted : Transport := {
  World := list (result Response);
  client_Do := scripted_Do;
}.

Definition reply (code : Z) (status : string) (h : Header) (body : bytes) : Response :=
  {| resp_StatusCode := code; resp_Status := status; resp_Header := h;
     resp_Body := body |}.

(** ** A reference registry

    One repository of a registry that keeps what it is given: upload
    sessions (POST, PATCH, PUT with the digest of the content received),
    blobs by digest, manifests by tag.  Session locations are relative and
    carry a [_state] query, as the locations of the distribution registry
    do. *)
Record Registry : Type := {
  reg_origin : string;
  reg_repo : string;
  reg_next : nat;
  reg_uploads : gmap string bytes;
  reg_blobs : gmap string bytes;
  reg_manifests : gmap string bytes;
}.

Module registry.

Definition session_id (n : nat) : string := fmt_d (Z.of_nat n).

(** The [Location] of the session [id], relative to the origin. *)
Definition session_location (repo id : string) : string :=
  "/v2/" +:+ repo +:+ "/blobs/uploads/" +:+ id +:+ "?_state=" +:+ id.

Definition digest_of (content : bytes) : string :=
  "sha256:" +:+ fmt_x (sha256.Sum content).

(** [Range: 0-<last>] of an upload that holds [n] bytes. *)
Definition upload_range (n : nat) : string :=
  "0-" +:+ fmt_d (Z.of_nat (n - 1)).

Definition with_uploads (r : Registry) (next : nat) (u : gmap string bytes) : Registry :=
  {| reg_origin := reg_origin r; reg_repo := reg_repo r; reg_next := next;
     reg_uploads := u; reg_blobs := reg_blobs r; reg_manifests := reg_manifests r |}.

Definition with_blob (r : Registry) (id digest : string) (content : bytes) : Registry :=
  {| reg_origin := reg_origin r; reg_repo := reg_repo r; reg_next := reg_next r;
     reg_uploads := delete id (reg_uploads r);
     reg_blobs := <[digest := content]> (reg_blobs r);
     reg_manifests := reg_manifests r |}.

Definition with_manifests (r : Registry) (m : gmap string bytes) : Registry :=
  {| reg_origin := reg_origin r; reg_repo := reg_repo r; reg_next := reg_next r;
     reg_uploads := reg_uploads r; reg_blobs := reg_blobs r; reg_manifests := m |}.

Definition not_found : Response := reply 404 "404 Not Found" ∅ [].
Definition bad_request : Response := reply 400 "400 Bad Request" ∅ [].

Definition session_headers (r : Registry) (id : string) (n : nat) : Header :=
  <["Location" := [session_location (reg_repo r) id]]>
    (<["Range" := [upload_range n]]> ∅).

Definition uploads (r : Registry) (method rest : string) (body : option bytes)
  : Response * Registry :=
  let '(id, query, _) := neturl.Cut rest "?" in
  match reg_uploads r !! id with
  | None => (not_found, r)
  | Some content =>
      if String.eqb method "PATCH" then
        if String.eqb query ("_state=" +:+ id) then
          let content' := (content ++ default [] body)%list in
          (reply 202 "202 Accepted" (session_headers r id (length content')) [],
           with_uploads r (reg_next r) (<[id := content']> (reg_uploads r)))
        else (bad_request, r)
      else if String.eqb method "PUT" then
        let content' := (content ++ default [] body)%list in
        let d := digest_of content' in
        if String.eqb query ("_state=" +:+ id +:+ "&digest=" +:+ url_QueryEscape d) then
          (reply 201 "201 Created" (<["Docker-Content-Digest" := [d]]> ∅) [],
           with_blob r id d content')
        else (bad_request, r)
      else (reply 405 "405 Method Not Allowed" ∅ [], r)
  end.

Definition manifests (r : Registry) (method ref : string) (body : option bytes)
  : Response * Registry :=
  if String.eqb method "PUT" then
    let b := default [] body in
    (reply 201 "201 Created" (<["Docker-Content-Digest" := [digest_of b]]> ∅) [],
     with_manifests r (<[ref := b]> (reg_manifests r)))
  else if String.eqb method "GET" then
    match reg_manifests r !! ref with
    | Some b =>
        (reply 200 "200 OK" (<["Docker-Content-Digest" := [digest_of b]]> ∅) b, r)
    | None => (not_found, r)
    end
  else if String.eqb method "HEAD" then
    match reg_manifests r !! ref with
    | Some b =>
        (reply 200 "200 OK" (<["Docker-Content-Digest" := [digest_of b]]> ∅) [], r)
    | None => (not_found, r)
    end
  else if String.eqb method "DELETE" then
    let keep := filter (fun kv => negb (String.eqb (digest_of (snd kv)) ref) = true)
                       (reg_manifests r) in
    if (size keep =? size (reg_manifests r))%nat then (not_found, r)
    else (reply 202 "202 Accepted" ∅ [], with_manifests r keep)
  else (reply 405 "405 Method Not Allowed" ∅ [], r).

(** The slice a [Range: bytes=<first>-<last>] header asks for. *)
Definition byte_range (h : Header) : option (Z * Z) :=
  let v := Header_Get h "Range" in
  if strings_HasPrefix v "bytes=" then
    let '(a, b, found) := neturl.Cut (strings_TrimPrefix v "bytes=") "-" in
    match scanNumber a, scanNumber b with
    | Some first, Some last =>
        if found && (first <=? last) then Some (first, last) else None
    | _, _ => None
    end
  else None.

Definition blobs (r : Registry) (method digest : string) (h : Header)
  : Response * Registry :=
  if String.eqb method "GET" then
    match reg_blobs r !! digest with
    | Some b =>
        match byte_range h with
        | Some (first, last) =>
            let len := Z.of_nat (length b) in
            if first <? len
            then (reply 206 "206 Partial Content" ∅
                    (firstn (Z.to_nat (Z.min last (len - 1) - first + 1))
                            (skipn (Z.to_nat first) b)), r)
            else (reply 416 "416 Range Not Satisfiable" ∅ [], r)
        | None => (reply 200 "200 OK" ∅ b, r)
        end
    | None => (not_found, r)
    end
  else (reply 405 "405 Method Not Allowed" ∅ [], r).

Definition tags (r : Registry) : Response * Registry :=
  match json.Marshal_tagsList
          {| Name := reg_repo r; Tags := map fst (map_to_list (reg_manifests r)) |} with
  | Ok b => (reply 200 "200 OK" ∅ b, r)
  | Err _ => (reply 500 "500 Internal Server Error" ∅ [], r)
  end.

(** The routes below [/v2/<repo>]. *)
Definition route (r : Registry) (m p : string) (body : option bytes) (h : Header)
  : Response * Registry :=
  if String.eqb p "/blobs/uploads/" then
    if String.eqb m "POST" then
      let id := session_id (reg_next r) in
      (reply 202 "202 Accepted" (session_headers r id 0) [],
       with_uploads r (S (reg_next r)) (<[id := []]> (reg_uploads r)))
    else (reply 405 "405 Method Not Allowed" ∅ [], r)
  else if strings_HasPrefix p "/blobs/uploads/" then
    uploads r m (strings_TrimPrefix p "/blobs/uploads/") body
  else if strings_HasPrefix p "/manifests/" then
    manifests r m (strings_TrimPrefix p "/manifests/") body
  else if strings_HasPrefix p "/blobs/" then
    blobs r m (strings_TrimPrefix p "/blobs/") h
  else if String.eqb p "/tags/list" && String.eqb m "GET" then tags r
  else (not_found, r).

Definition serve (req : Request) (r : Registry) : Response * Registry :=
  let root := reg_origin r +:+ "/v2/" +:+ reg_repo r in
  if negb (strings_HasPrefix (req_URL req) root) then (not_found, r)
  else route r (req_Method req) (strings_TrimPrefix (req_URL req) root)
             (req_Body req) (req_Header req).

Definition Do (c : httpClient) (req : Request) (r : Registry)
  : result Response * Registry :=
  let '(resp, r') := serve req r in (Ok resp, r').

(** An empty repository at the address of a store. *)
Definition empty (s : ociStore) : Registry :=
  {| reg_origin := base s; reg_repo := repo s; reg_next := 1;
     reg_uploads := ∅; reg_blobs := ∅; reg_manifests := ∅ |}.

End registry.

#[local] Instance RegistryTransport : Transport := {
  World := Registry;
  client_Do := registry.Do;
}.

(** * Vocabulary of the statements *)

Section Vocabulary.
Context {Url : NetURL} {Json : EncodingJSON} {Tr : Transport}.

(** The exchanges and the requests a computation adds to the log. *)
Definition exchanges_since (n n' : Net) : list Exchange :=
  skipn (length (log n)) (log n').

Definition requests_since (n n' : Net) : list Request :=
  map fst (exchanges_since n n').

(** The state after one more exchange. *)
Definition record (n : Net) (req : Request) (r : result Response) (w : World) : Net :=
  {| world := w; log := log n ++ [(req, r)] |}.

(** The request [do] hands to the client. *)
Definition sent (method fullURL : string) (body : option bytes) (headers : Header)
  : Request :=
  {| req_Method := method; req_URL := fullURL; req_Body := body;
     req_Header := Header_AddAll ∅ headers |}.

(** What [do] returns for an outcome of [client.Do]. *)
Definition do_result (method fullURL : string) (r : result Response)
  : result (bytes * Response) :=
  match r with
  | Err e => Err e
  | Ok resp =>
      if is_2xx (resp_StatusCode resp) then Ok (resp_Body resp, resp)
      else Err (ErrStatus method fullURL (resp_Status resp)
                  (strings_TrimSpace
                     (string_of_bytes (firstn (Z.to_nat (64 * 2 ^ 10)) (resp_Body resp)))))
  end.

(** The two requests of the read path. *)
Definition manifest_request (s : ociStore) (tag : string) : Request :=
  {| req_Method := "GET";
     req_URL := base s +:+ "/v2/" +:+ repo s +:+ "/manifests/" +:+ tag;
     req_Body := None;
     req_Header := {[ "Accept" := [manifestAccept] ]} |}.

Definition blob_request (s : ociStore) (digest : string) (h : Header) : Request :=
  {| req_Method := "GET";
     req_URL := base s +:+ "/v2/" +:+ repo s +:+ "/blobs/" +:+ digest;
     req_Body := None;
     req_Header := h |}.

(** The request of the listing. *)
Definition tags_request (s : ociStore) : Request :=
  {| req_Method := "GET";
     req_URL := base s +:+ "/v2/" +:+ repo s +:+ "/tags/list";
     req_Body := None;
     req_Header := ∅ |}.

(** The three requests of an upload. *)
Definition upload_start_request (s : ociStore) : Request :=
  {| req_Method := "POST";
     req_URL := base s +:+ "/v2/" +:+ repo s +:+ "/blobs/uploads/";
     req_Body := None;
     req_Header := ∅ |}.

Definition patch_request (uploadURL : string) (rd : bytes) : Request :=
  {| req_Method := "PATCH";
     req_URL := uploadURL;
     req_Body := Some rd;
     req_Header := {[ "Content-Type" := ["application/octet-stream"] ]} |}.

Definition finalize_request (finalURL : string) : Request :=
  {| req_Method := "PUT"; req_URL := finalURL; req_Body := None; req_Header := ∅ |}.

(** The digest [uploadBlob] computes for a payload. *)
Definition blob_digest (rd : bytes) : string := "sha256:" +:+ fmt_x (sha256.Sum rd).

(** The URL of the finalizing PUT for a session location. *)
Definition finalize_url (latest : string) (rd : bytes) : string :=
  latest +:+ (if strings_Contains latest "?" then "&" else "?")
         +:+ "digest=" +:+ url_QueryEscape (blob_digest rd).

(** The session location after the PATCH: the resolved [Location] of its
    response when there is one, the location of the POST otherwise. *)
Definition latest_location (s : ociStore) (uploadURL : string) (resp2 : Response)
  : result string :=
  if String.eqb (Header_Get (resp_Header resp2) "Location") "" then Ok uploadURL
  else resolveLocation s (Header_Get (resp_Header resp2) "Location").

(** The remote side answers an upload of [rd] that starts in the state
    [w0]: the POST with the 2xx response [resp1] whose [Location]
    resolves to [u1], the PATCH to [u1] with the 2xx response [resp2],
    after which the session location is [latest], and the finalizing PUT
    with [r3], leaving the state [w3].  Every URL on the way parses. *)
Definition upload_answered (s : ociStore) (rd : bytes) (w0 : World)
  (resp1 : Response) (u1 : string) (resp2 : Response) (latest : string)
  (r3 : result Response) (w3 : World) : Prop :=
  exists w1 w2,
    is_Ok (url_Parse (req_URL (upload_start_request s))) = true
    /\ client_Do (client s) (upload_start_request s) w0 = (Ok resp1, w1)
    /\ is_2xx (resp_StatusCode resp1) = true
    /\ String.eqb (Header_Get (resp_Header resp1) "Location") "" = false
    /\ resolveLocation s (Header_Get (resp_Header resp1) "Location") = Ok u1
    /\ is_Ok (url_Parse u1) = true
    /\ client_Do (client s) (patch_request u1 rd) w1 = (Ok resp2, w2)
    /\ is_2xx (resp_StatusCode resp2) = true
    /\ latest_location s u1 resp2 = Ok latest
    /\ is_Ok (url_Parse (finalize_url latest rd)) = true
    /\ client_Do (client s) (finalize_request (finalize_url latest rd)) w2 = (r3, w3).

(** The request that resolves a tag to the digest of its manifest. *)
Definition head_request (s : ociStore) (ref : string) : Request :=
  {| req_Method := "HEAD";
     req_URL := base s +:+ "/v2/" +:+ repo s +:+ "/manifests/" +:+ ref;
     req_Body := None;
     req_Header := {[ "Accept" := [manifestAccept] ]} |}.


(** The request that binds a tag to a manifest. *)
Definition manifest_put_request (s : ociStore) (tag : string) (body : bytes) : Request :=
  {| req_Method := "PUT";
     req_URL := base s +:+ "/v2/" +:+ repo s +:+ "/manifests/" +:+ tag;
     req_Body := Some body;
     req_Header := {[ "Content-Type" := [manifestMediaType] ]} |}.






End Vocabulary.

Section RoundTrip.
Context {Url : NetURL} {Json : EncodingJSON}.

(** What a put-then-get against the reference registry asks of the URL
    and JSON libraries, [next] being the number of the next upload
    session: the URLs of the exchange parse, a session location is
    resolved by putting the origin in front of it, and the manifest comes
    back from its encoding. *)
Definition libraries_agree (s : ociStore) (next : nat) (tag : string) (B : bytes)
  : Prop :=
  let below p := base s +:+ "/v2/" +:+ repo s +:+ p in
  let session id :=
    base s +:+ registry.session_location (repo s) (registry.session_id id) in
  let size := parseUploadedSize (registry.upload_range (length B)) in
  let m := putByTag_manifest (blob_digest B) size
             (blob_digest (bytes_of_string "{}")) in
  (forall u,
      In u [below "/blobs/uploads/"; below ("/manifests/" +:+ tag);
            below ("/blobs/" +:+ blob_digest B);
            session next; finalize_url (session next) B;
            session (S next);
            finalize_url (session (S next)) (bytes_of_string "{}")] ->
      is_Ok (url_Parse u) = true)
  /\ (forall id, id = next \/ id = S next ->
                 resolveLocation s
                   (registry.session_location (repo s) (registry.session_id id))
                 = Ok (session id))
  /\ exists body, json_Marshal_ociManifest m = Ok body
                  /\ json_Decode_ociManifest body = Ok m.

End RoundTrip.



(** The key a tag stands for under a prefix, in the words of the
    specification: the tag starts with the prefix, and what follows the
    prefix decodes from hexadecimal to exactly 32 bytes. *)
Definition conforming_key (prefix t : string) : option MAC :=
  if strings_HasPrefix t prefix then
    match hex_DecodeString (string_drop (String.length prefix) t) with
    | Ok b => if (length b =? 32)%nat then Some b else None
    | Err _ => None
    end
  else None.

(** The value of the [Range] header for an offset and a length. *)
Definition range_value (offset length : Z) : string :=
  "bytes=" +:+ fmt_d offset +:+ "-" +:+ fmt_d ((offset + length - 1) mod 2 ^ 64).


(** * Concrete inputs for the worked runs *)

(** The store of [oci://localhost:5000/demo]. *)
Definition demo_config : gmap string string := {[ "location" := "oci://localhost:5000/demo" ]}.

Definition demo_store : ociStore :=
  {| client := {| InsecureSkipVerify := true; Timeout := 0 |};
     base := "http://localhost:5000";
     repo := "demo" |}.

(** A key of 32 bytes, all [0x2a]. *)
Definition demo_key : MAC := repeat x2a 32.

Definition demo_tag : string :=
  "state-2a2a2a2a2a2a2a2a2a2a2a2a2a2a2a2a2a2a2a2a2a2a2a2a2a2a2a2a2a2a2a2a".

(** A scripted exchange starts with an empty log. *)
Definition script (answers : list (result Response)) : @Net Scripted :=
  @Build_Net Scripted answers [].

(** A registry that answers an upload without a [Range] header: the POST
    with a relative location, the PATCH with a bare 202, the PUT with
    201. *)
Definition answers_without_Range : list (result Response) :=
  [ Ok (reply 202 "202 Accepted" {[ "Location" := ["/v2/demo/blobs/uploads/7"] ]} []);
    Ok (reply 202 "202 Accepted" ∅ []);
    Ok (reply 201 "201 Created" ∅ []) ].




(** A tag listing. *)
Definition demo_tags_body : bytes :=
  bytes_of_string
    ("{" +:+ json.quote "name" +:+ ":" +:+ json.quote "demo" +:+ ","
         +:+ json.quote "tags" +:+ ":["
         +:+ json.quote "CONFIG" +:+ ","
         +:+ json.quote demo_tag +:+ ","
         +:+ json.quote "packfiles-00ff" +:+ ","
         +:+ json.quote "state-zz" +:+ ","
         +:+ json.quote "latest" +:+ "]}").


(** The reference registry of the demo store, empty, and after a [Put] of
    the five bytes [hello] under the demo key. *)
Definition demo_registry : @Net RegistryTransport :=
  @Build_Net RegistryTransport (registry.empty demo_store) [].

Definition demo_registry_after_put : @Net RegistryTransport :=
  snd (Put (Url := GoURL) (Json := GoJSON) (Tr := RegistryTransport)
         demo_store StorageResourceState demo_key (bytes_of_string "hello")
         demo_registry).

Definition hello_digest : string :=
  "sha256:2cf24dba5fb0a30e26e83b2ac5b9e29e1b161e5c1fa7425e73043362938b9824".

(** Manifest bodies that break the contract of the read path. *)
Definition manifest_without_layers : bytes :=
  bytes_of_string ("{" +:+ json.quote "schemaVersion" +:+ ":2,"
                       +:+ json.quote "layers" +:+ ":[]}").

Definition manifest_without_digest : bytes :=
  bytes_of_string ("{" +:+ json.quote "layers" +:+ ":[{"
                       +:+ json.quote "digest" +:+ ":" +:+ json.quote EmptyString
                       +:+ "}]}").



(** Reduce matches and projections on constructors without unfolding
    the functions of the store. *)
Ltac red_pairs := cbv beta iota zeta delta [fst snd negb].

(** * Further vocabulary *)

(** * Checks of the library models *)

Example fmt_x_ex : fmt_x [x00; x0a; xff; x7b] = "000aff7b".
Proof. reflexivity. Qed.

Example hex_DecodeString_ex : hex_DecodeString "000AfF7b" = Ok [x00; x0a; xff; x7b].
Proof. reflexivity. Qed.

Example hex_DecodeString_odd : is_Ok (hex_DecodeString "abc") = false.
Proof. reflexivity. Qed.

Example fmt_d_ex : fmt_d 0 = "0" /\ fmt_d 18446744073709551615 = "18446744073709551615".
Proof. split; reflexivity. Qed.

Example strings_Split_ex :
  strings_Split "0-41" "-" = ["0"; "41"] /\ strings_Split "" "-" = [""] /\
  strings_Split "a--b" "--" = ["a"; "b"] /\ strings_Split "-" "-" = [""; ""].
Proof. repeat split; reflexivity. Qed.

Example strings_Trim_ex :
  strings_Trim "//a/b//" "/" = "a/b" /\ strings_TrimRight "http://h/" "/" = "http://h".
Proof. split; reflexivity. Qed.

Example sha256_abc :
  fmt_x (sha256.Sum (bytes_of_string "abc"))
  = "ba7816bf8f01cfea414140de5dae2223b00361a396177a9cb410ff61f20015ad".
Proof. vm_compute. reflexivity. Qed.

Example sha256_empty :
  fmt_x (sha256.Sum [])
  = "e3b0c44298fc1c149afbf4c8996fb92427ae41e4649b934ca495991b7852b855".
Proof. vm_compute. reflexivity. Qed.

Example sha256_two_blocks :
  fmt_x (sha256.Sum (bytes_of_string "abcdbcdecdefdefgefghfghighijhijkijkljklmklmnlmnomnopnopq"))
  = "248d6a61d20638b8e5c026930c3e6039a33ce45964ff2167f6ecedd419db06c1".
Proof. vm_compute. reflexivity. Qed.

Example sha256_constants :
  nth 0 sha256.K 0 = 0x428a2f98 /\ nth 63 sha256.K 0 = 0xc67178f2
  /\ nth 0 sha256.H0 0 = 0x6a09e667 /\ nth 7 sha256.H0 0 = 0x5be0cd19
  /\ length sha256.K = 64%nat /\ length sha256.H0 = 8%nat.
Proof. repeat split. Qed.

(** * Properties *)

(** ** Strings *)

Lemma append_assoc (a b c : string) : (a +:+ b) +:+ c = a +:+ (b +:+ c).
Proof. induction a as [|x a IH]; simpl; [reflexivity | now rewrite IH]. Qed.

Lemma HasPrefix_app (p r : string) : strings_HasPrefix (p +:+ r) p = true.
Proof.
  induction p as [|c p IH]; simpl; [reflexivity |].
  now rewrite Ascii.eqb_refl.
Qed.

Lemma string_drop_app (p r : string) : string_drop (String.length p) (p +:+ r) = r.
Proof. induction p as [|c p IH]; simpl; [reflexivity | exact IH]. Qed.

Lemma HasPrefix_spec (s p : string) :
  strings_HasPrefix s p = true <-> exists r, s = p +:+ r.
Proof.
  split.
  - revert s. induction p as [|c p IH]; intros s Hs; simpl in *.
    + now exists s.
    + destruct s as [|d s]; [discriminate |].
      destruct (Ascii.eqb d c) eqn:E; [| discriminate].
      apply Ascii.eqb_eq in E. subst d.
      destruct (IH _ Hs) as [r ->]. now exists r.
  - intros [r ->]. apply HasPrefix_app.
Qed.

Lemma TrimPrefix_app (p r : string) : strings_TrimPrefix (p +:+ r) p = r.
Proof. unfold strings_TrimPrefix. now rewrite HasPrefix_app, string_drop_app. Qed.

(** ** Headers *)

Lemma Header_AddAll_empty (dst : Header) : Header_AddAll dst ∅ = dst.
Proof. unfold Header_AddAll. apply map_fold_empty. Qed.

Lemma Header_AddAll_singleton (k v : string) :
  Header_AddAll ∅ {[ k := [v] ]} = {[ CanonicalMIMEHeaderKey k := [v] ]}.
Proof.
  unfold Header_AddAll. rewrite map_fold_singleton. simpl.
  unfold Header_Add. rewrite lookup_empty. simpl. apply insert_empty.
Qed.

Lemma Header_Set_empty (k v : string) :
  Header_Set ∅ k v = {[ CanonicalMIMEHeaderKey k := [v] ]}.
Proof. unfold Header_Set. apply insert_empty. Qed.

(** ** Query escaping of a digest *)







Section Properties.
Context {Url : NetURL} {Json : EncodingJSON} {Tr : Transport}.

Lemma exchanges_since_refl (n : Net) : exchanges_since n n = [].
Proof. unfold exchanges_since. apply drop_all. Qed.

Lemma exchanges_since_record (n : Net) req r w :
  exchanges_since n (record n req r w) = [(req, r)].
Proof. unfold exchanges_since, record. simpl. apply drop_app_length. Qed.

(** [do] in one equation: the request is refused before the network when
    its URL does not parse, otherwise there is exactly one exchange. *)
Lemma do_unfold (s : ociStore) method fullURL body headers (n : Net) :
  do s method fullURL body headers n =
  match url_Parse fullURL with
  | Err e => (Err e, n)
  | Ok _ =>
      let req := sent method fullURL body headers in
      let r := fst (client_Do (client s) req (world n)) in
      let w := snd (client_Do (client s) req (world n)) in
      (do_result method fullURL r, record n req r w)
  end.
Proof.
  unfold do, http_NewRequest, sent, do_result, record, Request_with_Header.
  destruct (url_Parse fullURL) as [u|e]; [| reflexivity]. simpl.
  destruct (client_Do _ _ _) as [r w]. simpl.
  destruct r as [resp|e]; [| reflexivity].
  destruct (is_2xx _); reflexivity.
Qed.

Lemma do_cases (s : ociStore) method fullURL body headers (n : Net) :
  (exists e, url_Parse fullURL = Err e /\ do s method fullURL body headers n = (Err e, n))
  \/ (exists u r w,
        url_Parse fullURL = Ok u
        /\ client_Do (client s) (sent method fullURL body headers) (world n) = (r, w)
        /\ do s method fullURL body headers n
           = (do_result method fullURL r,
              record n (sent method fullURL body headers) r w)).
Proof.
  rewrite do_unfold. destruct (url_Parse fullURL) as [u|e].
  - right. destruct (client_Do (client s) (sent method fullURL body headers) (world n))
      as [r w] eqn:E. exists u, r, w. cbv zeta. rewrite E. simpl. auto.
  - left. eauto.
Qed.

Lemma log_record (n : Net) req r w : log (record n req r w) = (log n ++ [(req, r)])%list.
Proof. reflexivity. Qed.

Lemma exchanges_since_app (n n' : Net) l :
  log n' = (log n ++ l)%list -> exchanges_since n n' = l.
Proof. intros E. unfold exchanges_since. rewrite E. apply drop_app_length. Qed.

Lemma do_ok (s : ociStore) method fullURL body headers (n : Net) r w :
  is_Ok (url_Parse fullURL) = true ->
  client_Do (client s) (sent method fullURL body headers) (world n) = (r, w) ->
  do s method fullURL body headers n
  = (do_result method fullURL r, record n (sent method fullURL body headers) r w).
Proof.
  intros Hu Hdo. rewrite do_unfold.
  destruct (url_Parse fullURL); [| discriminate]. cbv zeta. now rewrite Hdo.
Qed.

(** *** The read path *)

Lemma manifest_request_sent (s : ociStore) (tag : string) :
  sent "GET" (baseURL s (repoBase s +:+ "/manifests/" +:+ tag)) None
       (Header_Set ∅ "Accept" manifestAccept)
  = manifest_request s tag.
Proof.
  unfold sent, manifest_request. rewrite Header_Set_empty, Header_AddAll_singleton.
  reflexivity.
Qed.

(** The requests of [getByTag]: none when the manifest URL does not
    parse, the manifest request alone when the read stops there, and
    otherwise the manifest request and one blob request that carries the
    caller's headers. *)
Lemma getByTag_requests (s : ociStore) (tag : string) (h : Header) (n : Net) :
  let n' := snd (getByTag s tag h n) in
  requests_since n n' = []
  \/ requests_since n n' = [manifest_request s tag]
  \/ exists digest,
       requests_since n n'
       = [manifest_request s tag;
          blob_request s digest (Header_AddAll ∅ (Header_AddAll ∅ h))].
Proof.
  unfold getByTag, doRepoRC, doRepoBlobRC, bind, fail, ret, requests_since.
  red_pairs.
  destruct (do_cases s "GET" (baseURL s (repoBase s +:+ "/manifests/" +:+ tag)) None
              (Header_Set ∅ "Accept" manifestAccept) n)
    as [(e & _ & ->) | (u & r & w & _ & _ & ->)].
  { left. red_pairs. now rewrite exchanges_since_refl. }
  rewrite manifest_request_sent.
  set (n1 := record n (manifest_request s tag) r w).
  assert (E1 : exchanges_since n n1 = [(manifest_request s tag, r)])
    by apply exchanges_since_record.
  destruct (do_result _ _ r) as [[rc resp]|e]; red_pairs;
    [| right; left; now rewrite E1].
  destruct (json_Decode_ociManifest rc) as [man|e]; red_pairs;
    [| right; left; now rewrite E1].
  destruct (Layers man) as [|layer rest]; red_pairs; [right; left; now rewrite E1 |].
  destruct (String.eqb (d_Digest layer) ""); red_pairs; [right; left; now rewrite E1 |].
  destruct (do_cases s "GET" (baseURL s (repoBase s +:+ "/blobs/" +:+ d_Digest layer))
              None (Header_AddAll ∅ h) n1)
    as [(e & _ & ->) | (u' & r' & w' & _ & _ & ->)].
  { right; left. red_pairs. now rewrite E1. }
  right; right. exists (d_Digest layer).
  set (breq := sent _ _ _ _).
  assert (E2 : exchanges_since n (record n1 breq r' w')
               = [(manifest_request s tag, r); (breq, r')]).
  { apply exchanges_since_app. unfold n1. rewrite !log_record, <- app_assoc. reflexivity. }
  destruct (do_result _ _ r') as [[rc' resp']|e']; red_pairs; now rewrite E2.
Qed.

(** *** Unsupported categories *)

(** C5.  For a resource category other than packfile, state and lock,
    each of [Put], [Get], [Delete] and [List] returns
    [errors.ErrUnsupported] and leaves the network state as it found it:
    the log gains no exchange, so no network call was made. *)
Theorem unsupported_category_rejected_offline
  (s : ociStore) (res : StorageResource) (mac : MAC) (rd : bytes)
  (rg : option Range) (n : Net) :
  res <> StorageResourcePackfile ->
  res <> StorageResourceState ->
  res <> StorageResourceLock ->
  (Put s res mac rd n = (Err ErrUnsupported, n)
   /\ Get s res mac rg n = (Err ErrUnsupported, n)
   /\ Delete s res mac n = (Err ErrUnsupported, n)
   /\ List s res n = (Err ErrUnsupported, n))
  /\ forall c : Call,
       In c [CallPut res mac rd; CallGet res mac rg; CallDelete res mac; CallList res] ->
       perform s c n = (Some ErrUnsupported, n)
       /\ requests_since n (snd (perform s c n)) = [].
Proof.
  intros Hp Hs Hl.
  destruct res; try congruence.
  split; [repeat split |].
  intros c Hc. simpl in Hc.
  assert (Hn : requests_since n n = [])
    by (unfold requests_since; now rewrite exchanges_since_refl).
  destruct Hc as [<-|[<-|[<-|[<-|[]]]]]; simpl; auto.
Qed.

(** *** Ranged reads *)

Lemma wrap_uint64_end (offset length : Z) :
  wrap_uint64 (offset + wrap_uint64 length - 1) = (offset + length - 1) mod 2 ^ 64.
Proof.
  unfold wrap_uint64.
  replace (offset + length mod 2 ^ 64 - 1) with (length mod 2 ^ 64 + (offset - 1)) by lia.
  rewrite Zplus_mod_idemp_l. f_equal. lia.
Qed.

Lemma Get_range_header_eq (rg : Range) :
  Get_range_header rg = {[ "Range" := [range_value (Offset rg) (Length rg)] ]}.
Proof.
  unfold Get_range_header, range_value.
  rewrite Header_Set_empty, wrap_uint64_end. reflexivity.
Qed.

(** The requests of a ranged [Get]. *)
Lemma Get_range_requests
  (s : ociStore) (res : StorageResource) (prefix : string) (mac : MAC)
  (rg : Range) (n : Net) :
  resource_prefix res = Some prefix ->
  let n' := snd (Get s res mac (Some rg) n) in
  requests_since n n' = []
  \/ requests_since n n' = [manifest_request s (tag_of prefix mac)]
  \/ exists digest,
       requests_since n n'
       = [manifest_request s (tag_of prefix mac);
          blob_request s digest {[ "Range" := [range_value (Offset rg) (Length rg)] ]}].
Proof.
  intros Hres n'. subst n'. unfold Get. rewrite Hres.
  destruct (getByTag_requests s (tag_of prefix mac) (Get_range_header rg) n)
    as [E|[E|[d E]]]; [now left | now right; left |].
  right; right. exists d. rewrite E.
  rewrite Get_range_header_eq, !Header_AddAll_singleton. reflexivity.
Qed.

(** C9, as the code has it.  A [Get] with a range sends at most two
    requests: the manifest request of the tag and then the blob request,
    and the blob request carries exactly one header,
    [Range: bytes=<offset>-<end>], where [<end>] is [offset+length-1]
    computed in [uint64], that is modulo 2^64.  Whenever the range is not
    empty and ends below 2^64, [<end>] is the integer [offset+length-1]. *)
Theorem Get_range_header_on_blob_request
  (s : ociStore) (res : StorageResource) (prefix : string) (mac : MAC)
  (rg : Range) (n : Net) :
  resource_prefix res = Some prefix ->
  let n' := snd (Get s res mac (Some rg) n) in
  let tag := tag_of prefix mac in
  let range := "bytes=" +:+ fmt_d (Offset rg) +:+ "-"
               +:+ fmt_d ((Offset rg + Length rg - 1) mod 2 ^ 64) in
  (requests_since n n' = []
   \/ requests_since n n' = [manifest_request s tag]
   \/ exists digest,
        requests_since n n'
        = [manifest_request s tag;
           blob_request s digest {[ "Range" := [range] ]}])
  /\ (0 <= Offset rg -> 1 <= Length rg -> Offset rg + Length rg - 1 < 2 ^ 64 ->
      range = "bytes=" +:+ fmt_d (Offset rg) +:+ "-"
              +:+ fmt_d (Offset rg + Length rg - 1)).
Proof.
  intros Hres n' tag range. subst n' tag range. split.
  - exact (Get_range_requests s res prefix mac rg n Hres).
  - intros Ha Hb Hc. rewrite Z.mod_small by lia. reflexivity.
Qed.

(** C10.  For a range of length 0 the end bound is [offset - 1] modulo
    2^64; at offset 0 it wraps to 2^64 - 1, and the blob request of such
    a [Get] carries [Range: bytes=0-18446744073709551615], which asks
    for the whole object and not for zero bytes. *)
Theorem Get_empty_range_wraps
  (s : ociStore) (res : StorageResource) (prefix : string) (mac : MAC) (n : Net) :
  resource_prefix res = Some prefix ->
  let n' := snd (Get s res mac (Some {| Offset := 0; Length := 0 |}) n) in
  let tag := tag_of prefix mac in
  (requests_since n n' = []
   \/ requests_since n n' = [manifest_request s tag]
   \/ exists digest,
        requests_since n n'
        = [manifest_request s tag;
           blob_request s digest {[ "Range" := ["bytes=0-18446744073709551615"] ]}])
  /\ (forall offset : Z,
        Get_range_header {| Offset := offset; Length := 0 |}
        = {[ "Range" := ["bytes=" +:+ fmt_d offset +:+ "-"
                         +:+ fmt_d ((offset - 1) mod 2 ^ 64)] ]})
  /\ (0 - 1) mod 2 ^ 64 = 2 ^ 64 - 1.
Proof.
  intros Hres n' tag. subst n' tag. split; [| split].
  - exact (Get_range_requests s res prefix mac {| Offset := 0; Length := 0 |} n Hres).
  - intros offset. rewrite Get_range_header_eq. unfold range_value. simpl Offset.
    simpl Length. now rewrite Z.add_0_r.
  - reflexivity.
Qed.

(** *** Listing *)

Lemma hex_DecodeString_length (t : string) (b : bytes) :
  hex_DecodeString t = Ok b -> String.length t = (2 * length b)%nat.
Proof.
  assert (Hn : forall m t b, (String.length t <= m)%nat ->
                 hex_DecodeString t = Ok b -> String.length t = (2 * length b)%nat).
  { clear t b. induction m as [|m IH]; intros t b Hm Hb.
    - destruct t; [| simpl in Hm; lia]. injection Hb as <-. reflexivity.
    - destruct t as [|p [|q t]]; simpl in Hb.
      + injection Hb as <-. reflexivity.
      + destruct (fromHexChar p); discriminate.
      + destruct (fromHexChar p); [| discriminate].
        destruct (fromHexChar q); [| discriminate].
        destruct (hex_DecodeString t) as [r|e] eqn:E; [| discriminate].
        injection Hb as <-. simpl in *. rewrite (IH t r); [lia | lia | exact E]. }
  apply (Hn (String.length t)). lia.
Qed.

Lemma listByPrefix_step_spec (prefix : string) (out : list MAC) (t : string) :
  listByPrefix_step prefix out t
  = (out ++ match conforming_key prefix t with Some k => [k] | None => [] end)%list.
Proof.
  unfold listByPrefix_step, conforming_key, strings_TrimPrefix.
  destruct (strings_HasPrefix t prefix); [| now rewrite app_nil_r].
  destruct (hex_DecodeString _) as [b|e]; [| now rewrite app_nil_r].
  destruct (length b =? 32)%nat eqn:E; [| now rewrite app_nil_r].
  apply Nat.eqb_eq in E. rewrite firstn_all2 by lia. reflexivity.
Qed.

Lemma listByPrefix_loop (prefix : string) (tags : list string) (out : list MAC) :
  fold_left (listByPrefix_step prefix) tags out
  = (out ++ omap (conforming_key prefix) tags)%list.
Proof.
  revert out. induction tags as [|t tags IH]; intros out; simpl.
  - now rewrite app_nil_r.
  - rewrite IH, listByPrefix_step_spec, <- app_assoc.
    destruct (conforming_key prefix t); reflexivity.
Qed.

Lemma conforming_key_spec (prefix t : string) (k : MAC) :
  conforming_key prefix t = Some k
  <-> exists rest, t = prefix +:+ rest /\ hex_DecodeString rest = Ok k /\ length k = 32%nat.
Proof.
  unfold conforming_key. split.
  - destruct (strings_HasPrefix t prefix) eqn:Hp; [| discriminate].
    apply HasPrefix_spec in Hp. destruct Hp as [rest ->].
    rewrite string_drop_app.
    destruct (hex_DecodeString rest) as [b|e] eqn:Hd; [| discriminate].
    destruct (length b =? 32)%nat eqn:E; [| discriminate].
    intros [= <-]. apply Nat.eqb_eq in E. eauto.
  - intros (rest & -> & Hd & Hl).
    rewrite HasPrefix_app, string_drop_app, Hd, Hl. reflexivity.
Qed.

Lemma conforming_key_CONFIG (prefix : string) : conforming_key prefix "CONFIG" = None.
Proof.
  destruct (conforming_key prefix "CONFIG") as [k|] eqn:E; [| reflexivity].
  apply conforming_key_spec in E. destruct E as (rest & Hc & Hd & Hl).
  apply hex_DecodeString_length in Hd.
  assert (Hlen : (String.length "CONFIG" = String.length prefix + String.length rest)%nat).
  { rewrite Hc. clear. induction prefix; simpl; [reflexivity | now rewrite IHprefix]. }
  simpl in Hlen. lia.
Qed.

(** C6.  When the registry answers the tag listing with a list of tags,
    [listByPrefix] returns, in the order of the list, exactly the keys of
    the conforming tags: a key is returned if and only if some tag of the
    list is the prefix followed by the hexadecimal form of that key, and
    the key has 32 bytes.  Every other tag contributes nothing and raises
    no error: a tag that does not start with the prefix, a tag whose
    remainder is not 64 hexadecimal digits, the reserved tag [CONFIG]. *)
Theorem listByPrefix_returns_conforming_keys
  (s : ociStore) (prefix : string) (n : Net) (u : URL) (resp : Response)
  (w : World) (tl : tagsList) :
  url_Parse (req_URL (tags_request s)) = Ok u ->
  client_Do (client s) (tags_request s) (world n) = (Ok resp, w) ->
  is_2xx (resp_StatusCode resp) = true ->
  json_Decode_tagsList (resp_Body resp) = Ok tl ->
  let keys := omap (conforming_key prefix) (Tags tl) in
  listByPrefix s prefix n = (Ok keys, record n (tags_request s) (Ok resp) w)
  /\ (forall k : MAC,
        k ∈ keys
        <-> exists rest, (prefix +:+ rest) ∈ Tags tl
                         /\ hex_DecodeString rest = Ok k /\ length k = 32%nat)
  /\ (forall t : string, strings_HasPrefix t prefix = false ->
                         conforming_key prefix t = None)
  /\ (forall rest (k : MAC), hex_DecodeString rest = Ok k -> length k = 32%nat ->
                             String.length rest = 64%nat)
  /\ conforming_key prefix "CONFIG" = None.
Proof.
  intros Hu Hdo H2xx Hdec keys. split; [| split; [| split; [| split]]].
  - unfold listByPrefix, doRepoRC, bind, lift, ret.
    rewrite do_unfold.
    change (baseURL s (repoBase s +:+ "/tags/list")) with (req_URL (tags_request s)).
    rewrite Hu. red_pairs.
    replace (sent "GET" (req_URL (tags_request s)) None ∅) with (tags_request s)
      by (unfold sent; now rewrite Header_AddAll_empty).
    rewrite Hdo. red_pairs. unfold do_result. rewrite H2xx, Hdec.
    rewrite listByPrefix_loop. reflexivity.
  - intros k. subst keys. rewrite list_elem_of_omap. split.
    + intros (t & Ht & Hk). apply conforming_key_spec in Hk.
      destruct Hk as (rest & -> & Hd & Hl). eauto.
    + intros (rest & Ht & Hd & Hl). exists (prefix +:+ rest). split; [exact Ht |].
      apply conforming_key_spec. eauto.
  - intros t Ht. unfold conforming_key. now rewrite Ht.
  - intros rest k Hd Hl. apply hex_DecodeString_length in Hd. lia.
  - apply conforming_key_CONFIG.
Qed.

(** *** Uploads *)

Lemma upload_start_request_sent (s : ociStore) :
  sent "POST" (baseURL s (repoBase s +:+ "/blobs/uploads/")) None ∅
  = upload_start_request s.
Proof. unfold sent. now rewrite Header_AddAll_empty. Qed.

Lemma patch_request_sent (u : string) (rd : bytes) :
  sent "PATCH" u (Some rd) (Header_Set ∅ "Content-Type" "application/octet-stream")
  = patch_request u rd.
Proof.
  unfold sent, patch_request. now rewrite Header_Set_empty, Header_AddAll_singleton.
Qed.

Lemma finalize_request_sent (u : string) : sent "PUT" u None ∅ = finalize_request u.
Proof. unfold sent. now rewrite Header_AddAll_empty. Qed.

Lemma finalize_url_eq (latest : string) (rd : bytes) :
  (if strings_Contains latest "?"
   then latest +:+ "&digest=" +:+ url_QueryEscape ("sha256:" +:+ fmt_x (sha256.Sum rd))
   else latest +:+ "?digest=" +:+ url_QueryEscape ("sha256:" +:+ fmt_x (sha256.Sum rd)))
  = finalize_url latest rd.
Proof. unfold finalize_url. destruct (strings_Contains latest "?"); reflexivity. Qed.

(** [uploadBlob] from its first lines to the PATCH, in equations. *)
Lemma uploadBlob_unfold (s : ociStore) (rd : bytes) (n : Net) :
  uploadBlob s rd n =
  match do s "POST" (baseURL s (repoBase s +:+ "/blobs/uploads/")) None ∅ n with
  | (Err e, n1) => (Err e, n1)
  | (Ok (_, resp), n1) =>
      if String.eqb (Header_Get (resp_Header resp) "Location") ""
      then (Err (Errorf "registry missing Location on upload start"), n1)
      else
        match resolveLocation s (Header_Get (resp_Header resp) "Location") with
        | Err e => (Err e, n1)
        | Ok uploadURL =>
            match do s "PATCH" uploadURL (Some rd)
                     (Header_Set ∅ "Content-Type" "application/octet-stream") n1 with
            | (Err e, n2) => (Err e, n2)
            | (Ok (_, resp2), n2) =>
                match latest_location s uploadURL resp2 with
                | Err e => (Err e, n2)
                | Ok latest =>
                    match do s "PUT" (finalize_url latest rd) None ∅ n2 with
                    | (Err e, n3) => (Err e, n3)
                    | (Ok _, n3) =>
                        (Ok (blob_digest rd,
                             parseUploadedSize (Header_Get (resp_Header resp2) "Range")),
                         n3)
                    end
                end
            end
        end
  end.
Proof.
  unfold uploadBlob, doRepo, bind, ret, fail, lift, latest_location.
  destruct (do s "POST" _ None ∅ n) as [[[rc resp]|e] n1]; [| reflexivity].
  red_pairs.
  destruct (String.eqb (Header_Get (resp_Header resp) "Location") ""); [reflexivity |].
  destruct (resolveLocation s _) as [uploadURL|e]; [| reflexivity].
  destruct (do s "PATCH" uploadURL _ _ n1) as [[[rc2 resp2]|e] n2]; [| reflexivity].
  red_pairs.
  destruct (String.eqb (Header_Get (resp_Header resp2) "Location") "");
    red_pairs.
  - rewrite finalize_url_eq.
    destruct (do s "PUT" _ None ∅ n2) as [[x|e] n3]; reflexivity.
  - destruct (resolveLocation s _) as [latest|e]; [| reflexivity].
    rewrite finalize_url_eq.
    destruct (do s "PUT" _ None ∅ n2) as [[x|e] n3]; reflexivity.
Qed.

(** An answered upload, run. *)
Lemma uploadBlob_answered (s : ociStore) (rd : bytes) (n : Net)
  resp1 u1 resp2 latest r3 w3 :
  upload_answered s rd (world n) resp1 u1 resp2 latest r3 w3 ->
  uploadBlob s rd n
  = (match do_result "PUT" (finalize_url latest rd) r3 with
     | Ok _ => Ok (blob_digest rd,
                   parseUploadedSize (Header_Get (resp_Header resp2) "Range"))
     | Err e => Err e
     end,
     {| world := w3;
        log := log n ++ [(upload_start_request s, Ok resp1);
                         (patch_request u1 rd, Ok resp2);
                         (finalize_request (finalize_url latest rd), r3)] |}).
Proof.
  intros (w1 & w2 & Hp1 & Hd1 & Hs1 & Hl1 & Hr1 & Hp2 & Hd2 & Hs2 & Hlat & Hp3 & Hd3).
  rewrite uploadBlob_unfold.
  rewrite (do_ok s "POST" _ None ∅ n (Ok resp1) w1);
    [| exact Hp1 | now rewrite upload_start_request_sent].
  rewrite upload_start_request_sent. unfold do_result at 1. rewrite Hs1, Hl1, Hr1.
  rewrite (do_ok s "PATCH" u1 _ _ _ (Ok resp2) w2);
    [| exact Hp2 | now rewrite patch_request_sent].
  rewrite patch_request_sent. unfold do_result at 1. rewrite Hs2, Hlat.
  rewrite (do_ok s "PUT" _ None ∅ _ r3 w3);
    [| exact Hp3 | now rewrite finalize_request_sent].
  rewrite finalize_request_sent. unfold record. simpl.
  rewrite <- !app_assoc. simpl.
  destruct (do_result "PUT" (finalize_url latest rd) r3); reflexivity.
Qed.



(** *** Protocol violations *)

Lemma head_request_sent (s : ociStore) (ref : string) :
  sent "HEAD" (baseURL s (repoBase s +:+ "/manifests/" +:+ ref)) None
       (Header_Set ∅ "Accept" manifestAccept)
  = head_request s ref.
Proof.
  unfold sent, head_request. rewrite Header_Set_empty, Header_AddAll_singleton.
  reflexivity.
Qed.

(** C7.  A response that breaks the contract of the protocol ends the
    operation with an error that names the violation.  (a) A 2xx answer
    to the upload POST without a [Location] header; (b) a 2xx answer to
    the manifest HEAD without a [Docker-Content-Digest] header; (c) on
    the read path, a 2xx manifest answer whose body does not decode,
    decodes to a manifest without layers, or to one whose first layer has
    an empty digest.  The functions are total, so there is no third
    outcome besides a value and an error. *)
Theorem protocol_violations_are_errors (s : ociStore) (n : Net) :
  (forall (rd : bytes) resp w,
      is_Ok (url_Parse (req_URL (upload_start_request s))) = true ->
      client_Do (client s) (upload_start_request s) (world n) = (Ok resp, w) ->
      is_2xx (resp_StatusCode resp) = true ->
      Header_Get (resp_Header resp) "Location" = "" ->
      uploadBlob s rd n
      = (Err (Errorf "registry missing Location on upload start"),
         record n (upload_start_request s) (Ok resp) w))
  /\ (forall (ref : string) resp w,
        is_Ok (url_Parse (req_URL (head_request s ref))) = true ->
        client_Do (client s) (head_request s ref) (world n) = (Ok resp, w) ->
        is_2xx (resp_StatusCode resp) = true ->
        Header_Get (resp_Header resp) "Docker-Content-Digest" = "" ->
        headManifestDigest s ref n
        = (Err (Errorf "missing Docker-Content-Digest header on HEAD manifest"),
           record n (head_request s ref) (Ok resp) w))
  /\ (forall (tag : string) (h : Header) resp w,
        is_Ok (url_Parse (req_URL (manifest_request s tag))) = true ->
        client_Do (client s) (manifest_request s tag) (world n) = (Ok resp, w) ->
        is_2xx (resp_StatusCode resp) = true ->
        let n1 := record n (manifest_request s tag) (Ok resp) w in
        (forall e, json_Decode_ociManifest (resp_Body resp) = Err e ->
                   getByTag s tag h n = (Err (ErrWrap "decode manifest" e), n1))
        /\ (forall man, json_Decode_ociManifest (resp_Body resp) = Ok man ->
                        Layers man = [] ->
                        getByTag s tag h n = (Err (Errorf "manifest has no layers"), n1))
        /\ (forall man layer rest,
               json_Decode_ociManifest (resp_Body resp) = Ok man ->
               Layers man = layer :: rest ->
               d_Digest layer = "" ->
               getByTag s tag h n
               = (Err (Errorf "manifest layer digest missing"), n1))).
Proof.
  split; [| split].
  - intros rd resp w Hp Hd Hs Hl. rewrite uploadBlob_unfold.
    rewrite (do_ok s "POST" _ None ∅ n (Ok resp) w);
      [| exact Hp | now rewrite upload_start_request_sent].
    rewrite upload_start_request_sent. unfold do_result. rewrite Hs, Hl. reflexivity.
  - intros ref resp w Hp Hd Hs Hl. unfold headManifestDigest, doRepo, bind, ret, fail.
    rewrite (do_ok s "HEAD" _ None _ n (Ok resp) w);
      [| exact Hp | now rewrite head_request_sent].
    rewrite head_request_sent. unfold do_result. rewrite Hs. red_pairs.
    rewrite Hl. reflexivity.
  - intros tag h resp w Hp Hd Hs n1.
    assert (E : doRepoRC s "GET" ("/manifests/" +:+ tag) None
                  (Header_Set ∅ "Accept" manifestAccept) n
                = (Ok (resp_Body resp, resp), n1)).
    { unfold doRepoRC.
      rewrite (do_ok s "GET" _ None _ n (Ok resp) w);
        [| exact Hp | now rewrite manifest_request_sent].
      rewrite manifest_request_sent. unfold do_result. now rewrite Hs. }
    unfold getByTag, bind, fail. rewrite E. red_pairs.
    split; [| split].
    + intros e He. now rewrite He.
    + intros man Hm Hl. now rewrite Hm, Hl.
    + intros man layer rest Hm Hl Hdg. now rewrite Hm, Hl, Hdg.
Qed.

(** *** The size an upload reports *)

Lemma parseUploadedSize_empty : parseUploadedSize "" = 0.
Proof. reflexivity. Qed.




(** *** The finalizing PUT *)



(** *** The requests of every call *)




Lemma manifest_put_request_sent (s : ociStore) (tag : string) (body : bytes) :
  sent "PUT" (baseURL s (repoBase s +:+ "/manifests/" +:+ tag)) (Some body)
       (Header_Set ∅ "Content-Type" manifestMediaType)
  = manifest_put_request s tag body.
Proof.
  unfold sent, manifest_put_request. rewrite Header_Set_empty, Header_AddAll_singleton.
  reflexivity.
Qed.













(** *** The transport policy *)


(** *** The manifests the store writes *)




End Properties.

(** ** The reference registry *)

Lemma string_of_uint_digits (d : Decimal.uint) :
  string_forallb is_digit (NilEmpty.string_of_uint d) = true.
Proof. induction d; simpl; auto. Qed.

Lemma session_id_digits (k : nat) :
  string_forallb is_digit (registry.session_id k) = true.
Proof.
  unfold registry.session_id, fmt_d.
  destruct (Z.of_nat k) as [|p|p] eqn:E; [reflexivity | | lia].
  simpl. unfold NilZero.string_of_uint.
  destruct (Pos.to_uint p) eqn:D; try reflexivity; apply string_of_uint_digits.
Qed.

Lemma digit_not_question (c : ascii) : is_digit c = true -> Ascii.eqb c "?" = false.
Proof.
  intros Hd. destruct (Ascii.eqb_spec c "?") as [->|]; [discriminate | reflexivity].
Qed.

Lemma Cut_digits (a b : string) :
  string_forallb is_digit a = true ->
  neturl.Cut (a +:+ String "?" b) "?" = (a, b, true).
Proof.
  induction a as [|c a IH]; simpl; [reflexivity |].
  intros Hd. apply andb_prop in Hd. destruct Hd as [Hc Ha].
  now rewrite (digit_not_question c Hc), (IH Ha).
Qed.

Lemma Contains_question (a b : string) : strings_Contains (a +:+ String "?" b) "?" = true.
Proof.
  induction a as [|c a IH]; [reflexivity |].
  cbn [String.append strings_Contains]. rewrite IH. apply orb_true_r.
Qed.

Lemma Contains_app_r (a b sub : string) :
  strings_Contains b sub = true -> strings_Contains (a +:+ b) sub = true.
Proof.
  intros Hb. induction a as [|c a IH]; [exact Hb |].
  cbn [String.append strings_Contains]. rewrite IH. apply orb_true_r.
Qed.

Lemma eqb_app_nonempty (a : string) (c : ascii) (b : string) :
  String.eqb (a +:+ String c b) "" = false.
Proof. destruct a; reflexivity. Qed.

Lemma state_query_nonempty (id rest : string) :
  String.eqb (id +:+ "?_state=" +:+ rest) "" = false.
Proof. exact (eqb_app_nonempty id "?" ("_state=" +:+ rest)). Qed.

Lemma Cut_state (id rest : string) :
  string_forallb is_digit id = true ->
  neturl.Cut (id +:+ "?_state=" +:+ rest) "?" = (id, "_state=" +:+ rest, true).
Proof. exact (Cut_digits id ("_state=" +:+ rest)). Qed.

Lemma Contains_state (a id rest : string) :
  strings_Contains (a +:+ id +:+ "?_state=" +:+ rest) "?" = true.
Proof.
  rewrite <- append_assoc. exact (Contains_question (a +:+ id) ("_state=" +:+ rest)).
Qed.

Lemma eqb_app_l (p x : string) : String.eqb (p +:+ x) p = String.eqb x "".
Proof.
  induction p as [|c p IH]; simpl.
  - destruct x; reflexivity.
  - now rewrite Ascii.eqb_refl.
Qed.

Lemma root_assoc (a b p : string) : a +:+ "/v2/" +:+ b +:+ p = (a +:+ "/v2/" +:+ b) +:+ p.
Proof. now rewrite !append_assoc. Qed.

Section RegistryRoundTrip.
Context {Url : NetURL} {Json : EncodingJSON}.

Lemma serve_below_root (s : ociStore) (r : Registry) (req : Request) (p : string) :
  reg_origin r = base s -> reg_repo r = repo s ->
  req_URL req = base s +:+ "/v2/" +:+ repo s +:+ p ->
  registry.serve req r
  = registry.route r (req_Method req) p (req_Body req) (req_Header req).
Proof.
  intros Ho Hr Hu. unfold registry.serve. rewrite Ho, Hr, Hu, root_assoc.
  now rewrite HasPrefix_app, TrimPrefix_app.
Qed.

Lemma route_patch (r : Registry) (id : string) (content rd : bytes) (h : Header) :
  string_forallb is_digit id = true ->
  reg_uploads r !! id = Some content ->
  registry.route r "PATCH" ("/blobs/uploads/" +:+ id +:+ "?_state=" +:+ id) (Some rd) h
  = (reply 202 "202 Accepted"
       (registry.session_headers r id (length (content ++ rd))) [],
     registry.with_uploads r (reg_next r)
       (<[id := (content ++ rd)%list]> (reg_uploads r))).
Proof.
  intros Hd Hl. unfold registry.route.
  rewrite eqb_app_l, state_query_nonempty, HasPrefix_app, TrimPrefix_app.
  unfold registry.uploads.
  rewrite (Cut_state id id Hd), Hl.
  change (String.eqb "PATCH" "PATCH") with true. cbv iota.
  rewrite String.eqb_refl. reflexivity.
Qed.

Lemma route_finalize (r : Registry) (id : string) (content : bytes) (h : Header) :
  string_forallb is_digit id = true ->
  reg_uploads r !! id = Some content ->
  registry.route r "PUT"
    ("/blobs/uploads/" +:+ id +:+ "?_state=" +:+ id +:+ "&digest="
                       +:+ url_QueryEscape (registry.digest_of content)) None h
  = (reply 201 "201 Created"
       (<["Docker-Content-Digest" := [registry.digest_of content]]> ∅) [],
     registry.with_blob r id (registry.digest_of content) content).
Proof.
  intros Hd Hl. unfold registry.route.
  rewrite eqb_app_l, state_query_nonempty, HasPrefix_app, TrimPrefix_app.
  unfold registry.uploads.
  rewrite (Cut_state id _ Hd), Hl.
  change (String.eqb "PUT" "PATCH") with false.
  change (String.eqb "PUT" "PUT") with true. cbv iota.
  simpl default. rewrite app_nil_r, String.eqb_refl. reflexivity.
Qed.

Lemma route_manifest_put (r : Registry) (tag : string) (body : bytes) (h : Header) :
  registry.route r "PUT" ("/manifests/" +:+ tag) (Some body) h
  = (reply 201 "201 Created"
       (<["Docker-Content-Digest" := [registry.digest_of body]]> ∅) [],
     registry.with_manifests r (<[tag := body]> (reg_manifests r))).
Proof.
  unfold registry.route.
  change (String.eqb ("/manifests/" +:+ tag) "/blobs/uploads/") with false.
  change (strings_HasPrefix ("/manifests/" +:+ tag) "/blobs/uploads/") with false.
  cbv iota. rewrite HasPrefix_app, TrimPrefix_app. reflexivity.
Qed.

Lemma route_manifest_get (r : Registry) (tag : string) (body : bytes) (h : Header) :
  reg_manifests r !! tag = Some body ->
  registry.route r "GET" ("/manifests/" +:+ tag) None h
  = (reply 200 "200 OK" (<["Docker-Content-Digest" := [registry.digest_of body]]> ∅) body,
     r).
Proof.
  intros Hl. unfold registry.route.
  change (String.eqb ("/manifests/" +:+ tag) "/blobs/uploads/") with false.
  change (strings_HasPrefix ("/manifests/" +:+ tag) "/blobs/uploads/") with false.
  cbv iota. rewrite HasPrefix_app, TrimPrefix_app.
  unfold registry.manifests.
  change (String.eqb "GET" "PUT") with false.
  change (String.eqb "GET" "GET") with true. cbv iota. now rewrite Hl.
Qed.

Lemma route_blob_get (r : Registry) (rd content : bytes) :
  reg_blobs r !! blob_digest rd = Some content ->
  registry.route r "GET" ("/blobs/" +:+ blob_digest rd) None ∅
  = (reply 200 "200 OK" ∅ content, r).
Proof.
  intros Hl. unfold registry.route, blob_digest in *.
  set (hex := fmt_x (sha256.Sum rd)) in *.
  change (String.eqb ("/blobs/" +:+ "sha256:" +:+ hex) "/blobs/uploads/") with false.
  change (strings_HasPrefix ("/blobs/" +:+ "sha256:" +:+ hex) "/blobs/uploads/")
    with false.
  change (strings_HasPrefix ("/blobs/" +:+ "sha256:" +:+ hex) "/manifests/") with false.
  cbv iota. rewrite HasPrefix_app, TrimPrefix_app.
  unfold registry.blobs. change (String.eqb "GET" "GET") with true. cbv iota.
  rewrite Hl. reflexivity.
Qed.

Lemma session_headers_Location (r : Registry) (id : string) (k : nat) :
  Header_Get (registry.session_headers r id k) "Location"
  = registry.session_location (reg_repo r) id.
Proof.
  unfold Header_Get, registry.session_headers.
  change (CanonicalMIMEHeaderKey "Location") with "Location".
  now rewrite lookup_insert_eq.
Qed.

Lemma session_headers_Range (r : Registry) (id : string) (k : nat) :
  Header_Get (registry.session_headers r id k) "Range" = registry.upload_range k.
Proof.
  unfold Header_Get, registry.session_headers.
  change (CanonicalMIMEHeaderKey "Range") with "Range".
  rewrite lookup_insert_ne by discriminate. now rewrite lookup_insert_eq.
Qed.

Lemma session_location_nonempty (repo id : string) :
  String.eqb (registry.session_location repo id) "" = false.
Proof. reflexivity. Qed.

Lemma finalize_url_session (s : ociStore) (id : string) (rd : bytes) :
  finalize_url (base s +:+ registry.session_location (repo s) id) rd
  = base s +:+ "/v2/" +:+ repo s
           +:+ ("/blobs/uploads/" +:+ id +:+ "?_state=" +:+ id +:+ "&digest="
                                  +:+ url_QueryEscape (blob_digest rd)).
Proof.
  unfold finalize_url, registry.session_location.
  assert (C : strings_Contains
                (base s +:+ "/v2/" +:+ repo s +:+ "/blobs/uploads/" +:+ id
                        +:+ "?_state=" +:+ id) "?" = true).
  { do 5 apply Contains_app_r. reflexivity. }
  rewrite C. now rewrite !append_assoc.
Qed.

(** An upload against the reference registry: the three exchanges
    succeed and the blob is stored under its digest. *)
Lemma registry_uploadBlob (s : ociStore) (r : Registry) (rd : bytes)
  (l : list (Request * result Response)) :
  let id := registry.session_id (reg_next r) in
  let session := base s +:+ registry.session_location (repo s) id in
  reg_origin r = base s -> reg_repo r = repo s ->
  is_Ok (url_Parse (base s +:+ "/v2/" +:+ repo s +:+ "/blobs/uploads/")) = true ->
  resolveLocation s (registry.session_location (repo s) id) = Ok session ->
  is_Ok (url_Parse session) = true ->
  is_Ok (url_Parse (finalize_url session rd)) = true ->
  exists r' l',
    uploadBlob (Tr := RegistryTransport) s rd {| world := r; log := l |}
    = (Ok (blob_digest rd, parseUploadedSize (registry.upload_range (length rd))),
       {| world := r'; log := l' |})
    /\ reg_origin r' = base s /\ reg_repo r' = repo s
    /\ reg_next r' = S (reg_next r)
    /\ reg_blobs r' = <[blob_digest rd := rd]> (reg_blobs r)
    /\ reg_manifests r' = reg_manifests r.
Proof.
  intros id session Ho Hr Hp0 Hres Hp1 Hp2.
  set (r1 := registry.with_uploads r (S (reg_next r)) (<[id := []]> (reg_uploads r))).
  set (r2 := registry.with_uploads r1 (reg_next r1) (<[id := rd]> (reg_uploads r1))).
  set (r3 := registry.with_blob r2 id (registry.digest_of rd) rd).
  set (resp1 := reply 202 "202 Accepted" (registry.session_headers r id 0) []).
  set (resp2 := reply 202 "202 Accepted"
                  (registry.session_headers r1 id (length rd)) []).
  set (resp3 := reply 201 "201 Created"
                  (<["Docker-Content-Digest" := [registry.digest_of rd]]> ∅) []).
  assert (Hd : string_forallb is_digit id = true) by apply session_id_digits.
  assert (A : upload_answered (Tr := RegistryTransport) s rd r resp1 session resp2
                session (Ok resp3) r3).
  { exists r1, r2.
    split; [exact Hp0 |]. split.
    { change (registry.Do (client s) (upload_start_request s) r = (Ok resp1, r1)).
      unfold registry.Do.
      rewrite (serve_below_root s r (upload_start_request s) "/blobs/uploads/"
                 Ho Hr eq_refl).
      reflexivity. }
    split; [reflexivity |]. split.
    { unfold resp1, reply. cbn [resp_Header].
      rewrite session_headers_Location. apply session_location_nonempty. }
    split.
    { unfold resp1, reply. cbn [resp_Header].
      rewrite session_headers_Location, Hr. exact Hres. }
    split; [exact Hp1 |]. split.
    { change (registry.Do (client s) (patch_request session rd) r1 = (Ok resp2, r2)).
      unfold registry.Do.
      rewrite (serve_below_root s r1 (patch_request session rd)
                 ("/blobs/uploads/" +:+ id +:+ "?_state=" +:+ id) Ho Hr);
        [| unfold session, registry.session_location; reflexivity].
      cbn [req_Method req_Body patch_request].
      rewrite (route_patch r1 id [] rd _ Hd); [reflexivity |].
      apply lookup_insert_eq. }
    split; [reflexivity |]. split.
    { unfold latest_location, resp2, reply. cbn [resp_Header].
      rewrite session_headers_Location. change (reg_repo r1) with (reg_repo r).
      rewrite Hr, session_location_nonempty. exact Hres. }
    split; [exact Hp2 |].
    change (registry.Do (client s) (finalize_request (finalize_url session rd)) r2
            = (Ok resp3, r3)).
    unfold registry.Do.
    rewrite (serve_below_root s r2 (finalize_request (finalize_url session rd))
               ("/blobs/uploads/" +:+ id +:+ "?_state=" +:+ id +:+ "&digest="
                  +:+ url_QueryEscape (blob_digest rd)) Ho Hr);
      [| apply finalize_url_session].
    cbn [req_Method req_Body finalize_request].
    change (blob_digest rd) with (registry.digest_of rd).
    rewrite (route_finalize r2 id rd _ Hd); [reflexivity |].
    apply lookup_insert_eq. }
  pose proof (uploadBlob_answered (Tr := RegistryTransport) s rd
                {| world := r; log := l |} _ _ _ _ _ _ A) as Hrun.
  simpl in Hrun. rewrite session_headers_Range in Hrun.
  eexists r3, _. split; [exact Hrun |].
  repeat split; auto.
Qed.

(** C1.  Against a registry that keeps the blobs and manifests it is
    given, for each of the three categories, every key and every payload:
    [Put] succeeds, and a [Get] of the same category and key without a
    range then returns exactly the payload.  The assumptions are on the
    surroundings: the registry serves the origin and repository of the
    store, the URL and JSON libraries handle the URLs and the manifest of
    the exchange, and the payload does not collide under SHA-256 with the
    two bytes of the configuration blob. *)
Theorem put_then_get_returns_payload
  (s : ociStore) (res : StorageResource) (prefix : string) (K : MAC) (B : bytes)
  (r : Registry) (l : list (Request * result Response)) :
  resource_prefix res = Some prefix ->
  length K = 32%nat ->
  reg_origin r = base s ->
  reg_repo r = repo s ->
  libraries_agree s (reg_next r) (tag_of prefix K) B ->
  (blob_digest B = blob_digest (bytes_of_string "{}") -> B = bytes_of_string "{}") ->
  exists size n1,
    Put (Tr := RegistryTransport) s res K B {| world := r; log := l |} = (Ok size, n1)
    /\ fst (Get (Tr := RegistryTransport) s res K None n1) = Ok B.
Proof.
  intros Hres HK Ho Hr (Hparse & Hresolve & body & Hm & Hdec) Hcoll.
  set (tag := tag_of prefix K) in *.
  cbv zeta in Hparse.
  unfold Put, Get. rewrite Hres. unfold putByTag, bind, lift, ret.
  (* the payload *)
  assert (P0 : is_Ok (url_Parse (base s +:+ "/v2/" +:+ repo s +:+ "/blobs/uploads/"))
               = true)
    by (apply Hparse; simpl; auto).
  assert (P1 : forall id rd, In (id, rd) [(reg_next r, B);
                                          (S (reg_next r), bytes_of_string "{}")] ->
               is_Ok (url_Parse (base s +:+ registry.session_location (repo s)
                                              (registry.session_id id))) = true
               /\ is_Ok (url_Parse
                           (finalize_url
                              (base s +:+ registry.session_location (repo s)
                                            (registry.session_id id)) rd)) = true).
  { intros id rd Hin. simpl in Hin.
    destruct Hin as [E|[E|[]]]; injection E as <- <-; split; apply Hparse; simpl;
      auto 10. }
  destruct (registry_uploadBlob s r B l Ho Hr P0 (Hresolve _ (or_introl eq_refl))
              (proj1 (P1 _ _ (or_introl eq_refl))) (proj2 (P1 _ _ (or_introl eq_refl))))
    as (r1 & l1 & E1 & Ho1 & Hr1 & Hn1 & Hb1 & Hm1).
  rewrite E1. red_pairs.
  (* the configuration blob *)
  pose proof (registry_uploadBlob s r1 (bytes_of_string "{}") l1 Ho1 Hr1 P0) as U2.
  cbv zeta in U2. rewrite Hn1 in U2.
  destruct (U2 (Hresolve _ (or_intror eq_refl))
              (proj1 (P1 _ _ (or_intror (or_introl eq_refl))))
              (proj2 (P1 _ _ (or_intror (or_introl eq_refl)))))
    as (r2 & l2 & E2 & Ho2 & Hr2 & Hn2 & Hb2 & Hm2).
  rewrite E2. red_pairs. rewrite Hm. red_pairs.
  (* the manifest *)
  unfold doRepo, bind, ret.
  set (n2 := {| world := r2; log := l2 |}).
  set (r3 := registry.with_manifests r2 (<[tag := body]> (reg_manifests r2))).
  set (created := reply 201 "201 Created"
                    (<["Docker-Content-Digest" := [registry.digest_of body]]> ∅) []).
  rewrite (do_ok (Tr := RegistryTransport) s "PUT" _ (Some body) _ n2 (Ok created) r3).
  2:{ apply Hparse. simpl. auto. }
  2:{ rewrite manifest_put_request_sent.
      change (registry.Do (client s) (manifest_put_request s tag body) r2
              = (Ok created, r3)).
      unfold registry.Do.
      rewrite (serve_below_root s r2 (manifest_put_request s tag body)
                 ("/manifests/" +:+ tag) Ho2 Hr2 eq_refl).
      cbn [req_Method req_Body manifest_put_request].
      now rewrite route_manifest_put. }
  unfold do_result. change (is_2xx (resp_StatusCode created)) with true.
  red_pairs. eexists _, _. split; [reflexivity |].
  (* the read *)
  unfold getByTag, doRepoRC, doRepoBlobRC, bind, fail, ret.
  set (n3 := record n2 _ _ r3).
  assert (Hl3 : reg_manifests r3 !! tag = Some body) by apply lookup_insert_eq.
  set (found := reply 200 "200 OK"
                  (<["Docker-Content-Digest" := [registry.digest_of body]]> ∅) body).
  rewrite (do_ok (Tr := RegistryTransport) s "GET" _ None _ n3 (Ok found) r3).
  2:{ apply Hparse. simpl. auto. }
  2:{ rewrite manifest_request_sent.
      change (registry.Do (client s) (manifest_request s tag) r3 = (Ok found, r3)).
      unfold registry.Do.
      rewrite (serve_below_root s r3 (manifest_request s tag)
                 ("/manifests/" +:+ tag) Ho2 Hr2 eq_refl).
      cbn [req_Method req_Body manifest_request].
      now rewrite (route_manifest_get r3 tag body _ Hl3). }
  unfold do_result. change (is_2xx (resp_StatusCode found)) with true.
  red_pairs. change (resp_Body found) with body. rewrite Hdec.
  cbn [Layers putByTag_manifest d_Digest].
  change (String.eqb (blob_digest B) "") with false. cbv iota.
  rewrite !Header_AddAll_empty.
  assert (Hblob : reg_blobs r3 !! blob_digest B = Some B).
  { change (reg_blobs r3) with (reg_blobs r2). rewrite Hb2, Hb1.
    destruct (decide (blob_digest (bytes_of_string "{}") = blob_digest B)) as [E|E].
    - rewrite E, lookup_insert_eq. f_equal. symmetry. now apply Hcoll.
    - rewrite lookup_insert_ne by exact E. apply lookup_insert_eq. }
  set (n4 := record n3 _ _ r3).
  rewrite (do_ok (Tr := RegistryTransport) s "GET" _ None ∅ n4
             (Ok (reply 200 "200 OK" ∅ B)) r3).
  2:{ apply Hparse. simpl. auto. }
  2:{ unfold sent. rewrite Header_AddAll_empty.
      change (registry.Do (client s) (blob_request s (blob_digest B) ∅) r3
              = (Ok (reply 200 "200 OK" ∅ B), r3)).
      unfold registry.Do.
      rewrite (serve_below_root s r3 (blob_request s (blob_digest B) ∅)
                 ("/blobs/" +:+ blob_digest B) Ho2 Hr2 eq_refl).
      cbn [req_Method req_Body req_Header blob_request].
      now rewrite (route_blob_get r3 B B Hblob). }
  reflexivity.
Qed.

End RegistryRoundTrip.

(** * Worked runs *)

(** ** The three supported categories and their prefixes *)

Example resource_prefixes :
  resource_prefix StorageResourcePackfile = Some "packfiles-"
  /\ resource_prefix StorageResourceState = Some "state-"
  /\ resource_prefix StorageResourceLock = Some "locks-".
Proof. repeat split. Qed.

Example New_demo : New (Url := GoURL) demo_config = Ok demo_store.
Proof. vm_compute. reflexivity. Qed.

Example tag_of_demo : tag_of "state-" demo_key = demo_tag.
Proof. vm_compute. reflexivity. Qed.

(** [resolveLocation] on a relative and on an absolute location. *)
Example resolveLocation_relative :
  resolveLocation (Url := GoURL) demo_store "/v2/demo/blobs/uploads/7?_state=one"
  = Ok "http://localhost:5000/v2/demo/blobs/uploads/7?_state=one".
Proof. vm_compute. reflexivity. Qed.

Example resolveLocation_absolute :
  resolveLocation (Url := GoURL) demo_store "https://uploads.example.com/session/1"
  = Ok "https://uploads.example.com/session/1".
Proof. vm_compute. reflexivity. Qed.

(** ** C5 *)

Lemma unsupported_category_witness :
  let res := StorageResourceOther 4 in
  res <> StorageResourcePackfile /\ res <> StorageResourceState
  /\ res <> StorageResourceLock
  /\ Put (Url := GoURL) (Json := GoJSON) (Tr := Scripted)
       demo_store res demo_key (bytes_of_string "abc") (script answers_without_Range)
     = (Err ErrUnsupported, script answers_without_Range).
Proof.
  intros res.
  assert (H1 : res <> StorageResourcePackfile) by discriminate.
  assert (H2 : res <> StorageResourceState) by discriminate.
  assert (H3 : res <> StorageResourceLock) by discriminate.
  split; [exact H1 |]. split; [exact H2 |]. split; [exact H3 |].
  exact (proj1 (proj1 (unsupported_category_rejected_offline
                         (Url := GoURL) (Json := GoJSON) (Tr := Scripted)
                         demo_store res demo_key (bytes_of_string "abc") None
                         (script answers_without_Range) H1 H2 H3))).
Defined.

(** ** C1 *)

Example hello_digest_eq : blob_digest (bytes_of_string "hello") = hello_digest.
Proof. vm_compute. reflexivity. Qed.

Lemma put_then_get_witness :
  resource_prefix StorageResourceState = Some "state-"
  /\ length demo_key = 32%nat
  /\ exists size n1,
       Put (Url := GoURL) (Json := GoJSON) (Tr := RegistryTransport)
         demo_store StorageResourceState demo_key (bytes_of_string "hello") demo_registry
       = (Ok size, n1)
       /\ fst (Get (Url := GoURL) (Json := GoJSON) (Tr := RegistryTransport)
                 demo_store StorageResourceState demo_key None n1)
          = Ok (bytes_of_string "hello").
Proof.
  split; [reflexivity |]. split; [reflexivity |].
  apply (put_then_get_returns_payload (Url := GoURL) (Json := GoJSON)
           demo_store StorageResourceState "state-" demo_key (bytes_of_string "hello")
           (registry.empty demo_store) []).
  - reflexivity.
  - reflexivity.
  - reflexivity.
  - reflexivity.
  - split; [| split].
    + intros u Hu. simpl in Hu.
      repeat (destruct Hu as [<- | Hu]; [vm_compute; reflexivity |]). destruct Hu.
    + intros id [-> | ->]; vm_compute; reflexivity.
    + eexists. split; vm_compute; reflexivity.
  - intros E. vm_compute in E. discriminate E.
Defined.

(** ** C9 and C10 *)

Lemma Get_range_witness :
  resource_prefix StorageResourceState = Some "state-"
  /\ exists digest,
       requests_since demo_registry_after_put
         (snd (Get (Url := GoURL) (Json := GoJSON) (Tr := RegistryTransport)
                 demo_store StorageResourceState demo_key
                 (Some {| Offset := 1; Length := 3 |}) demo_registry_after_put))
       = [manifest_request demo_store demo_tag;
          blob_request demo_store digest {[ "Range" := ["bytes=1-3"] ]}].
Proof.
  split; [reflexivity |].
  destruct (Get_range_header_on_blob_request
              (Url := GoURL) (Json := GoJSON) (Tr := RegistryTransport)
              demo_store StorageResourceState "state-" demo_key
              {| Offset := 1; Length := 3 |} demo_registry_after_put eq_refl)
    as [[E | [E | [digest E]]] _].
  - vm_compute in E. discriminate E.
  - vm_compute in E. discriminate E.
  - exists digest. exact E.
Defined.

(** At offset 0 and length 0 the header on the blob request is not
    [bytes=0-<0+0-1>]: the end bound has wrapped. *)
Lemma Get_range_end_is_not_the_integer_at_length_zero :
  let rg := {| Offset := 0; Length := 0 |} in
  requests_since demo_registry_after_put
    (snd (Get (Url := GoURL) (Json := GoJSON) (Tr := RegistryTransport)
            demo_store StorageResourceState demo_key (Some rg) demo_registry_after_put))
  = [manifest_request demo_store demo_tag;
     blob_request demo_store hello_digest
       {[ "Range" := ["bytes=0-18446744073709551615"] ]}]
  /\ "bytes=" +:+ fmt_d (Offset rg) +:+ "-" +:+ fmt_d (Offset rg + Length rg - 1)
     = "bytes=0--1"
  /\ "bytes=0-18446744073709551615" <> "bytes=0--1".
Proof.
  intros rg. split; [vm_compute; reflexivity |]. split; [reflexivity | discriminate].
Qed.

(** The ranged read of the worked run returns the three bytes asked for. *)
Example Get_range_run :
  fst (Get (Url := GoURL) (Json := GoJSON) (Tr := RegistryTransport)
         demo_store StorageResourceState demo_key
         (Some {| Offset := 1; Length := 3 |}) demo_registry_after_put)
  = Ok (bytes_of_string "ell").
Proof. vm_compute. reflexivity. Qed.

Lemma Get_empty_range_witness :
  resource_prefix StorageResourceState = Some "state-"
  /\ exists digest,
       requests_since demo_registry_after_put
         (snd (Get (Url := GoURL) (Json := GoJSON) (Tr := RegistryTransport)
                 demo_store StorageResourceState demo_key
                 (Some {| Offset := 0; Length := 0 |}) demo_registry_after_put))
       = [manifest_request demo_store demo_tag;
          blob_request demo_store digest
            {[ "Range" := ["bytes=0-18446744073709551615"] ]}].
Proof.
  split; [reflexivity |].
  destruct (Get_empty_range_wraps
              (Url := GoURL) (Json := GoJSON) (Tr := RegistryTransport)
              demo_store StorageResourceState "state-" demo_key
              demo_registry_after_put eq_refl)
    as [[E | [E | [digest E]]] _].
  - vm_compute in E. discriminate E.
  - vm_compute in E. discriminate E.
  - exists digest. exact E.
Defined.

(** Against the reference registry the empty range reads the whole
    object. *)
Example Get_empty_range_run :
  fst (Get (Url := GoURL) (Json := GoJSON) (Tr := RegistryTransport)
         demo_store StorageResourceState demo_key
         (Some {| Offset := 0; Length := 0 |}) demo_registry_after_put)
  = Ok (bytes_of_string "hello").
Proof. vm_compute. reflexivity. Qed.

(** ** C2 *)



(** ** C4 *)


(** ** C3 *)



(** ** C6 *)

Lemma listing_witness :
  exists u resp w tl,
    url_Parse (NetURL := GoURL) (req_URL (tags_request demo_store)) = Ok u
    /\ client_Do (Transport := Scripted) (client demo_store) (tags_request demo_store)
         [Ok (reply 200 "200 OK" ∅ demo_tags_body)] = (Ok resp, w)
    /\ is_2xx (resp_StatusCode resp) = true
    /\ json_Decode_tagsList (EncodingJSON := GoJSON) (resp_Body resp) = Ok tl
    /\ Tags tl = ["CONFIG"; demo_tag; "packfiles-00ff"; "state-zz"; "latest"]
    /\ fst (listByPrefix (Url := GoURL) (Json := GoJSON) (Tr := Scripted) demo_store
              "state-" (script [Ok (reply 200 "200 OK" ∅ demo_tags_body)]))
       = Ok [demo_key].
Proof.
  eexists _, _, _, _.
  split; [vm_compute; reflexivity |].
  match goal with |- ?A /\ ?B /\ ?C /\ _ =>
    assert (H1 : A) by (vm_compute; reflexivity);
    assert (H2 : B) by (vm_compute; reflexivity);
    assert (H3 : C) by (vm_compute; reflexivity)
  end.
  split; [exact H1 |]. split; [exact H2 |]. split; [exact H3 |].
  split; [reflexivity |].
  assert (H0 : url_Parse (NetURL := GoURL) (req_URL (tags_request demo_store))
               = Ok (match neturl.Parse (req_URL (tags_request demo_store)) with
                     | Ok u => u
                     | Err _ => neturl.empty_URL
                     end)) by (vm_compute; reflexivity).
  rewrite (proj1 (listByPrefix_returns_conforming_keys
                    (Url := GoURL) (Json := GoJSON) (Tr := Scripted)
                    demo_store "state-" (script [Ok (reply 200 "200 OK" ∅ demo_tags_body)])
                    _ _ _ _ H0 H1 H2 H3)).
  vm_compute. reflexivity.
Defined.

(** ** C7 *)

Lemma protocol_violations_witness :
  fst (uploadBlob (Url := GoURL) (Tr := Scripted) demo_store (bytes_of_string "abc")
         (script [Ok (reply 202 "202 Accepted" ∅ [])]))
  = Err (Errorf "registry missing Location on upload start")
  /\ fst (headManifestDigest (Url := GoURL) (Tr := Scripted) demo_store demo_tag
            (script [Ok (reply 200 "200 OK" ∅ [])]))
     = Err (Errorf "missing Docker-Content-Digest header on HEAD manifest")
  /\ fst (getByTag (Url := GoURL) (Json := GoJSON) (Tr := Scripted) demo_store demo_tag ∅
            (script [Ok (reply 200 "200 OK" ∅ (bytes_of_string "<html>"))]))
     = Err (ErrWrap "decode manifest"
              (ErrLib "json" "syntax error or unexpected end of input"))
  /\ fst (getByTag (Url := GoURL) (Json := GoJSON) (Tr := Scripted) demo_store demo_tag ∅
            (script [Ok (reply 200 "200 OK" ∅ manifest_without_layers)]))
     = Err (Errorf "manifest has no layers")
  /\ fst (getByTag (Url := GoURL) (Json := GoJSON) (Tr := Scripted) demo_store demo_tag ∅
            (script [Ok (reply 200 "200 OK" ∅ manifest_without_digest)]))
     = Err (Errorf "manifest layer digest missing").
Proof.
  split; [| split; [| split; [| split]]].
  - destruct (protocol_violations_are_errors (Url := GoURL) (Json := GoJSON)
                (Tr := Scripted) demo_store (script [Ok (reply 202 "202 Accepted" ∅ [])]))
      as (Ha & _ & _).
    rewrite (Ha (bytes_of_string "abc") (reply 202 "202 Accepted" ∅ []) []);
      [reflexivity | vm_compute; reflexivity | reflexivity | reflexivity
       | vm_compute; reflexivity].
  - destruct (protocol_violations_are_errors (Url := GoURL) (Json := GoJSON)
                (Tr := Scripted) demo_store (script [Ok (reply 200 "200 OK" ∅ [])]))
      as (_ & Hb & _).
    rewrite (Hb demo_tag (reply 200 "200 OK" ∅ []) []);
      [reflexivity | vm_compute; reflexivity | reflexivity | reflexivity
       | vm_compute; reflexivity].
  - destruct (protocol_violations_are_errors (Url := GoURL) (Json := GoJSON)
                (Tr := Scripted) demo_store
                (script [Ok (reply 200 "200 OK" ∅ (bytes_of_string "<html>"))]))
      as (_ & _ & Hc).
    destruct (Hc demo_tag ∅ (reply 200 "200 OK" ∅ (bytes_of_string "<html>")) [])
      as (Hdec & _ & _);
      [vm_compute; reflexivity | reflexivity | reflexivity |].
    rewrite (Hdec (ErrLib "json" "syntax error or unexpected end of input"));
      [reflexivity | vm_compute; reflexivity].
  - destruct (protocol_violations_are_errors (Url := GoURL) (Json := GoJSON)
                (Tr := Scripted) demo_store
                (script [Ok (reply 200 "200 OK" ∅ manifest_without_layers)]))
      as (_ & _ & Hc).
    destruct (Hc demo_tag ∅ (reply 200 "200 OK" ∅ manifest_without_layers) [])
      as (_ & Hnone & _);
      [vm_compute; reflexivity | reflexivity | reflexivity |].
    rewrite (Hnone {| SchemaVersion := 2; MediaType := EmptyString;
                      Config := json.zero_descriptor; Layers := [] |});
      [reflexivity | vm_compute; reflexivity | reflexivity].
  - destruct (protocol_violations_are_errors (Url := GoURL) (Json := GoJSON)
                (Tr := Scripted) demo_store
                (script [Ok (reply 200 "200 OK" ∅ manifest_without_digest)]))
      as (_ & _ & Hc).
    destruct (Hc demo_tag ∅ (reply 200 "200 OK" ∅ manifest_without_digest) [])
      as (_ & _ & Hdig);
      [vm_compute; reflexivity | reflexivity | reflexivity |].
    rewrite (Hdig {| SchemaVersion := 0; MediaType := EmptyString;
                     Config := json.zero_descriptor;
                     Layers := [json.zero_descriptor] |}
               json.zero_descriptor []);
      [reflexivity | vm_compute; reflexivity | reflexivity | reflexivity].
Defined.

(** ** C8 *)


(** * Further properties of the store *)
